(** * zebra.mixins: attribute-driven delegation to the Stripe SDK

    A shallow embedding of [zebra/mixins.py] and the properties of its
    resolver, its per-resource accessors, the sync method and the
    aggregate class.

    The Python object protocol the mixins rely on ([hasattr], [getattr],
    [callable], calls, properties, the method resolution order) is written
    out explicitly.  One host object is under observation; it is the value
    [VSelf].  Its instance [__dict__], the SDK's module-level [api_key] and
    the log of SDK invocations form the state every operation threads.

    The functions a host class defines itself are arbitrary state
    transformers, given by the environment; so are the shape of the SDK and
    the answers of the service.  Properties and bound methods reach the
    mixin functions again through [self], so running a method is bounded by
    fuel: the depth of nested invocations. *)

From Stdlib Require Import String Ascii List ZArith.
From stdpp Require Import base option gmap strings.
Import ListNotations.
Local Open Scope string_scope.
Local Open Scope list_scope.
Set Warnings "-register-all".

(** ** Values *)

(** The callables a host can hold: its own functions, named by [MUser], and
    the functions the mixin classes define. *)
Inductive method : Type :=
| MUser (f : string)
| M_stripe_sync
| M_get_stripe
| M_get_stripe_customer
| M_get_stripe_subscription
| M_get_stripe_plan
| M_get_stripe_invoice
| M_get_stripe_invoice_item
| M_get_stripe_charge.

Inductive value : Type :=
| VNone
| VBool (b : bool)
| VInt (z : Z)
| VStr (s : string)
| VDict (items : list (string * value))
| VObject (attrs : list (string * value))
| VSdk (path : list string)
| VMethod (m : method)
| VSelf.

(** [VSdk []] is the imported module; [VSdk ["Customer"; "retrieve"]] is
    [stripe.Customer.retrieve]. *)
Definition stripe : value := VSdk [].

(** Python truth value, as [if] and [and] test it. *)
Definition truthy (v : value) : bool :=
  match v with
  | VNone => false
  | VBool b => b
  | VInt z => negb (Z.eqb z 0)
  | VStr s => negb (String.eqb s "")
  | VDict items => match items with [] => false | _ :: _ => true end
  | VObject _ | VSdk _ | VMethod _ | VSelf => true
  end.

(** Lookup in an ordered list of items (keyword arguments, the fields of a
    resource the SDK returned). *)
Fixpoint assoc (name : string) (items : list (string * value)) : option value :=
  match items with
  | [] => None
  | (k, v) :: rest => if String.eqb k name then Some v else assoc name rest
  end.

(** [s.split(sep)] for a one-character separator. *)
Fixpoint split (sep : ascii) (s : string) : list string :=
  match s with
  | EmptyString => [EmptyString]
  | String c rest =>
      if Ascii.eqb c sep then EmptyString :: split sep rest
      else match split sep rest with
           | part :: parts => String c part :: parts
           | [] => [String c EmptyString]
           end
  end.

(** ** State, outcomes and the monad of effects *)

Record sdk_call : Type := SdkCall {
  call_path : list string;
  call_args : list value;
  call_kwargs : list (string * value)
}.

Record state : Type := State {
  self_dict : gmap string value;
  api_key : value;
  calls : list sdk_call
}.

Inductive exn : Type :=
| AttributeError
| TypeError
| OtherError (name : string).

Inductive outcome (A : Type) : Type :=
| Return (a : A)
| Raise (e : exn)
| Diverge.
Arguments Return {A} a.
Arguments Raise {A} e.
Arguments Diverge {A}.

Definition M (A : Type) : Type := state -> outcome A * state.

Definition ret {A} (a : A) : M A := fun st => (Return a, st).
Definition raise {A} (e : exn) : M A := fun st => (Raise e, st).
Definition diverge {A} : M A := fun st => (Diverge, st).

Definition bind {A B} (c : M A) (k : A -> M B) : M B := fun st =>
  match c st with
  | (Return a, st') => k a st'
  | (Raise e, st') => (Raise e, st')
  | (Diverge, st') => (Diverge, st')
  end.

Notation "x <- c ;; k" := (bind c (fun x => k))
  (at level 100, c at next level, right associativity).

Definition set_api_key (v : value) : M unit := fun st =>
  (Return tt, State (self_dict st) v (calls st)).

Definition get_api_key : M value := fun st => (Return (api_key st), st).

(** ** The environment: what the host and the SDK bring *)

Record environment : Type := Environment {
  (* the bodies of the host's own functions *)
  code : string -> list value -> list (string * value) -> M value;
  (* which dotted paths below the module exist, and which are callable *)
  sdk_has : list string -> bool;
  sdk_callable : list string -> bool;
  (* the answer of the service, for the key configured at the time *)
  sdk_reply : value -> sdk_call -> outcome value;
  (* [hasattr] of Python 2 hides every exception; Python 3 hides only
     [AttributeError] *)
  hasattr_hides_all : bool
}.

(** An SDK invocation is logged, then answered. *)
Definition sdk_invoke (E : environment) (path : list string)
    (args : list value) (kwargs : list (string * value)) : M value := fun st =>
  let c := SdkCall path args kwargs in
  (sdk_reply E (api_key st) c, State (self_dict st) (api_key st) (calls st ++ [c])).

Definition callable (E : environment) (v : value) : bool :=
  match v with
  | VMethod _ => true
  | VSdk path => sdk_callable E path
  | _ => false
  end.

(** ** Classes, the method resolution order and attribute lookup *)

(** What a class body binds a name to. *)
Inductive member : Type :=
| ClassAttr (v : value)
| Function (m : method)
| Property (getter : method).

(** The first class of the linearised hierarchy that binds [name] wins. *)
Fixpoint find_member (name : string) (mro : list (gmap string member))
    : option member :=
  match mro with
  | [] => None
  | body :: bases =>
      match body !! name with
      | Some d => Some d
      | None => find_member name bases
      end
  end.

Inductive lookup_result : Type :=
| Computed (getter : method)
| Found (v : value)
| Missing.

(** [object.__getattribute__]: a property of the class comes first, then the
    instance [__dict__], then the other class attributes; a function found
    on the class is handed out as a bound method. *)
Definition lookup_attr (mro : list (gmap string member))
    (dict : gmap string value) (name : string) : lookup_result :=
  match find_member name mro with
  | Some (Property getter) => Computed getter
  | other =>
      match dict !! name with
      | Some v => Found v
      | None =>
          match other with
          | Some (ClassAttr v) => Found v
          | Some (Function m) => Found (VMethod m)
          | _ => Missing
          end
      end
  end.

(** Attributes of the values that are not the host.  The module answers
    [api_key] from the state and otherwise by the paths it has; a resource
    answers by its fields.  The attributes the builtin types carry are not
    modelled ([str.split] is, below). *)
Definition getattr_value (E : environment) (o : value) (name : string) : M value :=
  match o with
  | VSdk path =>
      match path with
      | [] => if String.eqb name "api_key" then get_api_key
              else if sdk_has E [name] then ret (VSdk [name])
              else raise AttributeError
      | _ => if sdk_has E (path ++ [name]) then ret (VSdk (path ++ [name]))
             else raise AttributeError
      end
  | VObject attrs =>
      match assoc name attrs with
      | Some v => ret v
      | None => raise AttributeError
      end
  | _ => raise AttributeError
  end.

(** The object protocol the mixin bodies are written against. *)
Record protocol : Type := Protocol {
  getattr : value -> string -> M value;
  call : value -> list value -> list (string * value) -> M value
}.

Definition is_attribute_error (e : exn) : bool :=
  match e with AttributeError => true | _ => false end.

Definition hasattr (E : environment) (P : protocol) (o : value) (name : string)
    : M bool := fun st =>
  match getattr P o name st with
  | (Return _, st') => (Return true, st')
  | (Raise e, st') =>
      if is_attribute_error e || hasattr_hides_all E then (Return false, st')
      else (Raise e, st')
  | (Diverge, st') => (Diverge, st')
  end.

(** [name.split('.')] on whatever the attribute holds. *)
Definition str_split (v : value) : M (list string) :=
  match v with
  | VStr s => ret (split "." s)
  | _ => raise AttributeError
  end.

(** [**kwargs] needs a mapping. *)
Definition as_kwargs (v : value) : M (list (string * value)) :=
  match v with
  | VDict items => ret items
  | _ => raise TypeError
  end.

(** ** The source, function by function *)

Definition _get_attr_value (E : environment) (P : protocol)
    (instance : value) (attr : string) (default : value) : M value :=
  present <- hasattr E P instance attr ;;
  if (present : bool) then
    value <- getattr P instance attr ;;
    if callable E value then call P value [] [] else ret value
  else ret default.

(** [for method_part in parts: stripe_method = getattr(stripe_method, method_part)] *)
Fixpoint walk (P : protocol) (stripe_method : value) (parts : list string)
    : M value :=
  match parts with
  | [] => ret stripe_method
  | method_part :: rest =>
      next <- getattr P stripe_method method_part ;;
      walk P next rest
  end.

Module StripeSyncMixin.

Definition stripe_sync (E : environment) (P : protocol) (self : value)
    : M value :=
  bound <- getattr P self "stripe_sync" ;;
  if negb (truthy bound) then ret VNone else
  kwargs <- getattr P self "stripe_sync_kwargs" ;;
  if negb (truthy kwargs) then ret VNone else
  name <- getattr P self "stripe_sync_method" ;;
  if negb (truthy name) then ret VNone else
  stripe_method <- getattr P self "stripe_method" ;;
  stripe_method <-
    (if callable E stripe_method then ret stripe_method
     else
       handle <- getattr P self "stripe" ;;
       name <- getattr P self "stripe_sync_method" ;;
       parts <- str_split name ;;
       walk P handle parts) ;;
  if callable E stripe_method then
    kwargs <- getattr P self "stripe_sync_kwargs" ;;
    items <- as_kwargs kwargs ;;
    _ <- call P stripe_method [] items ;;
    ret VNone
  else ret VNone.

Definition body : gmap string member :=
  <["stripe_sync_enabled" := ClassAttr (VBool false)]>
  (<["stripe_sync_kwargs" := ClassAttr (VDict [])]>
  (<["stripe_sync_method" := ClassAttr (VStr "")]>
  (<["stripe_sync" := Function M_stripe_sync]> ∅))).

End StripeSyncMixin.

Module StripeMixin.

Definition _get_stripe (E : environment) (P : protocol) (self : value)
    : M value :=
  present <- hasattr E P self "stripe_api_key" ;;
  _ <- (if (present : bool) then
          key <- _get_attr_value E P self "stripe_api_key" VNone ;;
          set_api_key key
        else ret tt) ;;
  ret stripe.

Definition body : gmap string member :=
  <["_get_stripe" := Function M_get_stripe]>
  (<["stripe" := Property M_get_stripe]> ∅).

End StripeMixin.

Module StripeCustomerMixin.

Definition _get_stripe_customer (E : environment) (P : protocol)
    (self : value) : M value :=
  handle <- getattr P self "stripe" ;;
  resource <- getattr P handle "Customer" ;;
  retrieve <- getattr P resource "retrieve" ;;
  id <- _get_attr_value E P self "stripe_customer_id" VNone ;;
  call P retrieve [id] [].

Definition body : gmap string member :=
  <["_get_stripe_customer" := Function M_get_stripe_customer]>
  (<["stripe_customer" := Property M_get_stripe_customer]> ∅).

End StripeCustomerMixin.

Module StripeSubscriptionMixin.

Definition _get_stripe_subscription (E : environment) (P : protocol)
    (self : value) : M value :=
  customer <- _get_attr_value E P self "stripe_customer" VNone ;;
  present <- hasattr E P customer "subscription" ;;
  if (present : bool) then getattr P customer "subscription" else ret VNone.

Definition body : gmap string member :=
  <["_get_stripe_subscription" := Function M_get_stripe_subscription]>
  (<["stripe_subscription" := Property M_get_stripe_subscription]> ∅).

End StripeSubscriptionMixin.

Module StripePlanMixin.

Definition _get_stripe_plan (E : environment) (P : protocol) (self : value)
    : M value :=
  resource <- getattr P stripe "Plan" ;;
  retrieve <- getattr P resource "retrieve" ;;
  id <- _get_attr_value E P self "stripe_plan_id" VNone ;;
  call P retrieve [id] [].

Definition body : gmap string member :=
  <["_get_stripe_plan" := Function M_get_stripe_plan]>
  (<["stripe_plan" := Property M_get_stripe_plan]> ∅).

End StripePlanMixin.

Module StripeInvoiceMixin.

Definition _get_stripe_invoice (E : environment) (P : protocol)
    (self : value) : M value :=
  resource <- getattr P stripe "Invoice" ;;
  retrieve <- getattr P resource "retrieve" ;;
  id <- _get_attr_value E P self "stripe_invoice_id" VNone ;;
  call P retrieve [id] [].

Definition body : gmap string member :=
  <["_get_stripe_invoice" := Function M_get_stripe_invoice]>
  (<["stripe_invoice" := Property M_get_stripe_invoice]> ∅).

End StripeInvoiceMixin.

Module StripeInvoiceItemMixin.

Definition _get_stripe_invoice (E : environment) (P : protocol)
    (self : value) : M value :=
  resource <- getattr P stripe "Invoice" ;;
  retrieve <- getattr P resource "retrieve" ;;
  id <- _get_attr_value E P self "stripe_invoice_item_id" VNone ;;
  call P retrieve [id] [].

(* the class binds the same two names as [StripeInvoiceMixin] *)
Definition body : gmap string member :=
  <["_get_stripe_invoice" := Function M_get_stripe_invoice_item]>
  (<["stripe_invoice" := Property M_get_stripe_invoice_item]> ∅).

End StripeInvoiceItemMixin.

Module StripeChargeMixin.

Definition _get_stripe_charge (E : environment) (P : protocol)
    (self : value) : M value :=
  resource <- getattr P stripe "Charge" ;;
  retrieve <- getattr P resource "retrieve" ;;
  id <- _get_attr_value E P self "stripe_charge_id" VNone ;;
  call P retrieve [id] [].

Definition body : gmap string member :=
  <["_get_stripe_charge" := Function M_get_stripe_charge]>
  (<["stripe_charge" := Property M_get_stripe_charge]> ∅).

End StripeChargeMixin.

Module ZebraMixin.

(* [pass] *)
Definition body : gmap string member := ∅.

(* class ZebraMixin(StripeMixin, StripeCustomerMixin, ...): every base
   derives from [object] alone, so the linearisation is the class
   followed by its bases as listed. *)
Definition mro : list (gmap string member) :=
  [ body;
    StripeMixin.body;
    StripeCustomerMixin.body;
    StripeSubscriptionMixin.body;
    StripePlanMixin.body;
    StripeInvoiceMixin.body;
    StripeInvoiceItemMixin.body;
    StripeChargeMixin.body ].

End ZebraMixin.

(** ** Running a method on the host *)

(** The mixin functions take [self] alone; a host function gets what it is
    called with. *)
Definition run_method (E : environment) (P : protocol) (m : method)
    (args : list value) (kwargs : list (string * value)) : M value :=
  let alone (body : M value) : M value :=
    match args, kwargs with
    | [], [] => body
    | _, _ => raise TypeError
    end in
  match m with
  | MUser f => code E f args kwargs
  | M_stripe_sync => alone (StripeSyncMixin.stripe_sync E P VSelf)
  | M_get_stripe => alone (StripeMixin._get_stripe E P VSelf)
  | M_get_stripe_customer =>
      alone (StripeCustomerMixin._get_stripe_customer E P VSelf)
  | M_get_stripe_subscription =>
      alone (StripeSubscriptionMixin._get_stripe_subscription E P VSelf)
  | M_get_stripe_plan => alone (StripePlanMixin._get_stripe_plan E P VSelf)
  | M_get_stripe_invoice =>
      alone (StripeInvoiceMixin._get_stripe_invoice E P VSelf)
  | M_get_stripe_invoice_item =>
      alone (StripeInvoiceItemMixin._get_stripe_invoice E P VSelf)
  | M_get_stripe_charge => alone (StripeChargeMixin._get_stripe_charge E P VSelf)
  end.

(** The protocol of a host of class hierarchy [mro], given a way [inv] to
    run the methods that attribute access and calls reach. *)
Definition protocol_of (E : environment) (mro : list (gmap string member))
    (inv : method -> list value -> list (string * value) -> M value)
    : protocol :=
  {| getattr := fun o name =>
       match o with
       | VSelf => fun st =>
           match lookup_attr mro (self_dict st) name with
           | Computed getter => inv getter [] [] st
           | Found v => (Return v, st)
           | Missing => (Raise AttributeError, st)
           end
       | _ => getattr_value E o name
       end;
     call := fun f args kwargs =>
       match f with
       | VMethod m => inv m args kwargs
       | VSdk path =>
           if sdk_callable E path then sdk_invoke E path args kwargs
           else raise TypeError
       | _ => raise TypeError
       end |}.

(** [fuel] bounds the depth of nested method and getter invocations. *)
Fixpoint invoke (E : environment) (mro : list (gmap string member))
    (fuel : nat) (m : method) (args : list value)
    (kwargs : list (string * value)) : M value :=
  match fuel with
  | 0 => diverge
  | S n => run_method E (protocol_of E mro (invoke E mro n)) m args kwargs
  end.

Definition host (E : environment) (mro : list (gmap string member))
    (fuel : nat) : protocol :=
  protocol_of E mro (invoke E mro fuel).

(** ** A concrete SDK and concrete hosts, for the examples *)

Module Demo.

Definition resources : list string :=
  ["Customer"; "Plan"; "Invoice"; "InvoiceItem"; "Charge"].
Definition operations : list string := ["retrieve"; "create"].

Definition has (path : list string) : bool :=
  match path with
  | [r] => existsb (String.eqb r) resources
  | [r; op] => existsb (String.eqb r) resources && existsb (String.eqb op) operations
  | _ => false
  end.

(* the service answers with a resource that records what was asked *)
Definition reply (key : value) (c : sdk_call) : outcome value :=
  Return (VObject [("path", VStr (String.concat "." (call_path c)));
                   ("id", match call_args c with [id] => id | _ => VNone end)]).

(* the host's own functions: [bump] marks the host as seen and answers
   "hi"; every other name answers "hi" *)
Definition user_code (f : string) (args : list value)
    (kwargs : list (string * value)) : M value := fun st =>
  if String.eqb f "bump"
  then (Return (VStr "hi"),
        State (<["seen" := VBool true]> (self_dict st)) (api_key st) (calls st))
  else (Return (VStr "hi"), st).

Definition env : environment :=
  {| code := user_code;
     sdk_has := has;
     sdk_callable := has;
     sdk_reply := reply;
     hasattr_hides_all := false |}.

(* an environment whose host functions have no effect *)
Definition quiet_env : environment :=
  {| code := fun _ _ _ => ret (VStr "hi");
     sdk_has := has;
     sdk_callable := has;
     sdk_reply := reply;
     hasattr_hides_all := false |}.

Definition start (dict : gmap string value) : state :=
  State dict VNone [].

End Demo.

(** ** Example hosts *)

Module Foo.
(* the class of the resolver's docstring:
     class Foo(object):
         bar = 'baz'
         def hi(self): return 'hi'                                    *)
Definition body : gmap string member :=
  <["bar" := ClassAttr (VStr "baz")]> (<["hi" := Function (MUser "hi")]> ∅).
End Foo.

Module Visitor.
(* class Visitor(object):
       def bump(self):
           self.seen = True
           return 'hi'                                                  *)
Definition body : gmap string member :=
  <["bump" := Function (MUser "bump")]> ∅.
End Visitor.

Module Account.
(* class Account(ZebraMixin): stripe_api_key = 'sk_test' *)
Definition body : gmap string member :=
  <["stripe_api_key" := ClassAttr (VStr "sk_test")]> ∅.
End Account.

Module Member.
(* class Member(StripeSubscriptionMixin): the host supplies the customer
   object itself, here one that carries a subscription *)
Definition body : gmap string member :=
  <["stripe_customer" := ClassAttr (VObject [("subscription", VStr "sub_1")])]> ∅.
End Member.

Module Guest.
(* class Guest(StripeSubscriptionMixin): a customer with no subscription *)
Definition body : gmap string member :=
  <["stripe_customer" := ClassAttr (VObject [("id", VStr "cus_1")])]> ∅.
End Guest.

Module Billing.
(* class Billing(ZebraMixin):
       stripe_api_key = 'sk_test'
       stripe_customer_id = 'cus_1'
       stripe_plan_id = 'gold'
       stripe_invoice_id = 'in_1'
       stripe_invoice_item_id = 'ii_1'
       stripe_charge_id = 'ch_1'                                        *)
Definition body : gmap string member :=
  <["stripe_api_key" := ClassAttr (VStr "sk_test")]>
  (<["stripe_customer_id" := ClassAttr (VStr "cus_1")]>
  (<["stripe_plan_id" := ClassAttr (VStr "gold")]>
  (<["stripe_invoice_id" := ClassAttr (VStr "in_1")]>
  (<["stripe_invoice_item_id" := ClassAttr (VStr "ii_1")]>
  (<["stripe_charge_id" := ClassAttr (VStr "ch_1")]> ∅))))).

Definition mro : list (gmap string member) := body :: ZebraMixin.mro.
End Billing.

Module LineItem.
(* class LineItem(StripeInvoiceItemMixin): stripe_invoice_item_id = 'ii_1' *)
Definition body : gmap string member :=
  <["stripe_invoice_item_id" := ClassAttr (VStr "ii_1")]> ∅.

Definition mro : list (gmap string member) :=
  [body; StripeInvoiceItemMixin.body].
End LineItem.

Module Muted.
(* class Muted(StripeSyncMixin, StripeMixin):
       stripe_sync_enabled = False
       stripe_sync_kwargs = {'email': 'a@b.com'}
       stripe_sync_method = 'Customer.create'
       stripe_method = None                                             *)
Definition body : gmap string member :=
  <["stripe_sync_enabled" := ClassAttr (VBool false)]>
  (<["stripe_sync_kwargs" := ClassAttr (VDict [("email", VStr "a@b.com")])]>
  (<["stripe_sync_method" := ClassAttr (VStr "Customer.create")]>
  (<["stripe_method" := ClassAttr VNone]> ∅))).

Definition mro : list (gmap string member) :=
  [body; StripeSyncMixin.body; StripeMixin.body].
End Muted.

Module Signup.
(* class Signup(StripeSyncMixin, StripeMixin):
       stripe_sync_enabled = True
       stripe_sync_kwargs = {'email': 'a@b.com'}
       stripe_sync_method = 'Customer.create'                           *)
Definition body : gmap string member :=
  <["stripe_sync_enabled" := ClassAttr (VBool true)]>
  (<["stripe_sync_kwargs" := ClassAttr (VDict [("email", VStr "a@b.com")])]>
  (<["stripe_sync_method" := ClassAttr (VStr "Customer.create")]> ∅)).

Definition mro : list (gmap string member) :=
  [body; StripeSyncMixin.body; StripeMixin.body].
End Signup.

(** ** The notions the properties are stated with *)

(** A computation keeps the host when the instance dictionary it leaves is
    the one it found. *)
Definition keeps_host {A} (c : M A) : Prop :=
  forall st, self_dict (snd (c st)) = self_dict st.

(** A computation keeps the configured key, from a given state. *)
Definition keeps_key {A} (c : M A) (st : state) : Prop :=
  api_key (snd (c st)) = api_key st.

(** The attribute of a value that is not the host, when it has it. *)
Definition field (E : environment) (st : state) (o : value) (name : string)
    : option value :=
  match getattr_value E o name st with
  | (Return v, _) => Some v
  | _ => None
  end.

(** The shape the plan, invoice, invoice item and charge getters share:
    [stripe.<resource>.retrieve(_get_attr_value(self, <attr>))], on the
    module itself. *)
Definition retrieve_by_id (E : environment) (P : protocol)
    (resource attr : string) (self : value) : M value :=
  cls <- getattr P stripe resource ;;
  retrieve <- getattr P cls "retrieve" ;;
  id <- _get_attr_value E P self attr VNone ;;
  call P retrieve [id] [].

(** ** Further hosts and notions, for the properties beyond the claims *)

Module Idle.
(* class Idle(StripeSyncMixin, StripeMixin): pass *)
Definition mro : list (gmap string member) :=
  [∅; StripeSyncMixin.body; StripeMixin.body].
End Idle.

Module Draft.
(* class Draft(StripeSyncMixin, StripeMixin):
       stripe_sync_enabled = True
       stripe_sync_kwargs = {'email': 'a@b.com'}                          *)
Definition body : gmap string member :=
  <["stripe_sync_enabled" := ClassAttr (VBool true)]>
  (<["stripe_sync_kwargs" := ClassAttr (VDict [("email", VStr "a@b.com")])]> ∅).

Definition mro : list (gmap string member) :=
  [body; StripeSyncMixin.body; StripeMixin.body].
End Draft.

Module Direct.
(* class Direct(StripeSyncMixin, StripeMixin):
       stripe_sync_kwargs = {'email': 'a@b.com'}
       stripe_sync_method = 'Customer.create'
       stripe_method = stripe.Customer.create                             *)
Definition body : gmap string member :=
  <["stripe_sync_kwargs" := ClassAttr (VDict [("email", VStr "a@b.com")])]>
  (<["stripe_sync_method" := ClassAttr (VStr "Customer.create")]>
  (<["stripe_method" := ClassAttr (VSdk ["Customer"; "create"])]> ∅)).

Definition mro : list (gmap string member) :=
  [body; StripeSyncMixin.body; StripeMixin.body].
End Direct.

Module Lone.
(* class Lone(StripeCustomerMixin, StripeSubscriptionMixin):
       stripe_customer_id = 'cus_1'
   a host built without StripeMixin: it has no attribute [stripe] *)
Definition body : gmap string member :=
  <["stripe_customer_id" := ClassAttr (VStr "cus_1")]> ∅.

Definition mro : list (gmap string member) :=
  [body; StripeCustomerMixin.body; StripeSubscriptionMixin.body].
End Lone.

Module Custom.
(* class Custom(ZebraMixin):
       stripe_customer_id = 'cus_1'
       def _get_stripe_customer(self): return 'hi'
   a subclass that overrides a getter method, as the note at the head of
   the source invites to *)
Definition body : gmap string member :=
  <["stripe_customer_id" := ClassAttr (VStr "cus_1")]>
  (<["_get_stripe_customer" := Function (MUser "mine")]> ∅).

Definition mro : list (gmap string member) := body :: ZebraMixin.mro.
End Custom.

Module Outage.
(* the service is unreachable: every invocation raises *)
Definition env : environment :=
  {| code := Demo.user_code;
     sdk_has := Demo.has;
     sdk_callable := Demo.has;
     sdk_reply := fun _ _ => Raise (OtherError "APIConnectionError");
     hasattr_hides_all := false |}.

(* the same, under the [hasattr] of Python 2 *)
Definition legacy_env : environment :=
  {| code := Demo.user_code;
     sdk_has := Demo.has;
     sdk_callable := Demo.has;
     sdk_reply := fun _ _ => Raise (OtherError "APIConnectionError");
     hasattr_hides_all := true |}.
End Outage.

Module Lazy.
(* class Lazy(object):
       def hi(self): return 'hi'
       token = property(lambda self: self.hi)
   a property whose value is itself callable *)
Definition body : gmap string member :=
  <["hi" := Function (MUser "hi")]>
  (<["token" := Property (MUser "maker")]> ∅).

Definition env : environment :=
  {| code := fun f _ _ =>
       if String.eqb f "maker" then ret (VMethod (MUser "hi"))
       else ret (VStr "hi");
     sdk_has := Demo.has;
     sdk_callable := Demo.has;
     sdk_reply := Demo.reply;
     hasattr_hides_all := false |}.
End Lazy.

Module Mixed.
(* class Mixed(Visitor, Foo): a host with a method that writes to it
   ([bump]) next to attributes that do not ([bar], [hi]) *)
Definition mro : list (gmap string member) := [Visitor.body; Foo.body].
End Mixed.

Module Faulty.
(* class Faulty(object):
       def token(self): raise ValueError()                              *)
Definition body : gmap string member :=
  <["token" := Function (MUser "token")]> ∅.

Definition env : environment :=
  {| code := fun _ _ _ => raise (OtherError "ValueError");
     sdk_has := Demo.has;
     sdk_callable := Demo.has;
     sdk_reply := Demo.reply;
     hasattr_hides_all := false |}.
End Faulty.

(** Every step of a dotted path exists below [path] in the SDK. *)
Fixpoint reachable (E : environment) (path parts : list string) : bool :=
  match parts with
  | [] => true
  | part :: rest =>
      sdk_has E (path ++ [part]) && reachable E (path ++ [part]) rest
  end.

(** What a caller sees of an invocation whose result the method drops. *)
Definition dropped (r : outcome value) : outcome value :=
  match r with
  | Return _ => Return VNone
  | Raise e => Raise e
  | Diverge => Diverge
  end.

(** ** Basic facts about the monad and the protocol *)

Lemma bind_return {A B} (c : M A) (k : A -> M B) st a st' :
  c st = (Return a, st') -> bind c k st = k a st'.
Proof. intros H. unfold bind. now rewrite H. Qed.

Lemma bind_raise {A B} (c : M A) (k : A -> M B) st e st' :
  c st = (Raise e, st') -> bind c k st = (Raise e, st').
Proof. intros H. unfold bind. now rewrite H. Qed.

Lemma getattr_self E mro fuel name st :
  getattr (host E mro fuel) VSelf name st =
  match lookup_attr mro (self_dict st) name with
  | Computed getter => invoke E mro fuel getter [] [] st
  | Found v => (Return v, st)
  | Missing => (Raise AttributeError, st)
  end.
Proof. reflexivity. Qed.

Lemma getattr_found E mro fuel name st v :
  lookup_attr mro (self_dict st) name = Found v ->
  getattr (host E mro fuel) VSelf name st = (Return v, st).
Proof. intros H. rewrite getattr_self. now rewrite H. Qed.

Lemma getattr_missing E mro fuel name st :
  lookup_attr mro (self_dict st) name = Missing ->
  getattr (host E mro fuel) VSelf name st = (Raise AttributeError, st).
Proof. intros H. rewrite getattr_self. now rewrite H. Qed.

Lemma hasattr_found E mro fuel name st v :
  lookup_attr mro (self_dict st) name = Found v ->
  hasattr E (host E mro fuel) VSelf name st = (Return true, st).
Proof. intros H. unfold hasattr. now rewrite (getattr_found _ _ _ _ _ _ H). Qed.

Lemma hasattr_missing E mro fuel name st :
  lookup_attr mro (self_dict st) name = Missing ->
  hasattr E (host E mro fuel) VSelf name st = (Return false, st).
Proof. intros H. unfold hasattr. now rewrite (getattr_missing _ _ _ _ _ H). Qed.

(** The resolver, step by step, over any protocol: the existence check
    reads the attribute once, the resolver reads it again and calls what it
    got when that is callable. *)
Lemma resolve_absent E P o attr d st st0 :
  hasattr E P o attr st = (Return false, st0) ->
  _get_attr_value E P o attr d st = (Return d, st0).
Proof.
  intros H. unfold _get_attr_value. now rewrite (bind_return _ _ _ _ _ H).
Qed.

Lemma resolve_plain E P o attr d st st0 st1 v :
  hasattr E P o attr st = (Return true, st0) ->
  getattr P o attr st0 = (Return v, st1) ->
  callable E v = false ->
  _get_attr_value E P o attr d st = (Return v, st1).
Proof.
  intros H G C. unfold _get_attr_value.
  rewrite (bind_return _ _ _ _ _ H). rewrite (bind_return _ _ _ _ _ G).
  now rewrite C.
Qed.

Lemma resolve_called E P o attr d st st0 st1 v :
  hasattr E P o attr st = (Return true, st0) ->
  getattr P o attr st0 = (Return v, st1) ->
  callable E v = true ->
  _get_attr_value E P o attr d st = call P v [] [] st1.
Proof.
  intros H G C. unfold _get_attr_value.
  rewrite (bind_return _ _ _ _ _ H). rewrite (bind_return _ _ _ _ _ G).
  now rewrite C.
Qed.

(** ** The resolver *)

(** C7. A host that lacks attribute [X] resolves to the default it was
    given, whatever that is, and to [None] when the caller gives none; the
    state is as before. *)
Theorem resolve_missing_returns_default E mro fuel st X d :
  lookup_attr mro (self_dict st) X = Missing ->
  _get_attr_value E (host E mro fuel) VSelf X d st = (Return d, st)
  /\ _get_attr_value E (host E mro fuel) VSelf X VNone st = (Return VNone, st).
Proof.
  intros H. split; apply resolve_absent; now apply hasattr_missing.
Qed.

Lemma resolve_missing_returns_default_witness :
  lookup_attr [∅] (self_dict (Demo.start ∅)) "xyz" = Missing
  /\ _get_attr_value Demo.env (host Demo.env [∅] 0) VSelf "xyz" (VBool false)
       (Demo.start ∅) = (Return (VBool false), Demo.start ∅).
Proof.
  split; [reflexivity |].
  apply (resolve_missing_returns_default Demo.env [∅] 0 (Demo.start ∅) "xyz").
  reflexivity.
Defined.

(** A property of the class is a property whatever the instance stores. *)
Lemma lookup_computed mro dict dict' X getter :
  lookup_attr mro dict X = Computed getter ->
  lookup_attr mro dict' X = Computed getter.
Proof.
  unfold lookup_attr.
  destruct (find_member X mro) as [[v | m | g] |]; try (intros H; exact H);
    destruct (dict !! X); discriminate.
Qed.

Lemma getattr_computed E mro fuel name st getter :
  lookup_attr mro (self_dict st) name = Computed getter ->
  getattr (host E mro fuel) VSelf name st = invoke E mro fuel getter [] [] st.
Proof. intros H. rewrite getattr_self. now rewrite H. Qed.

Lemma hasattr_returned E P o name st v st0 :
  getattr P o name st = (Return v, st0) ->
  hasattr E P o name st = (Return true, st0).
Proof. intros H. unfold hasattr. now rewrite H. Qed.

(** C8. When attribute [X] of the host is a callable that, called with no
    argument, returns [V], the resolver returns [V], not the callable; when
    it is a value that is not callable, the resolver returns that value.
    So for an attribute stored on the instance or the class (a method is a
    callable), so for a property, whose getter the resolver runs for the
    existence check and again for the value, and so for any host by what
    the two reads of [X] give. *)
Theorem resolve_calls_callable_else_raw E mro fuel st X d :
  let P := host E mro fuel in
  let resolved := _get_attr_value E P VSelf X d st in
  (forall v,
     lookup_attr mro (self_dict st) X = Found v ->
     (forall V st', callable E v = true ->
        call P v [] [] st = (Return V, st') ->
        resolved = (Return V, st'))
     /\ (callable E v = false -> resolved = (Return v, st)))
  /\ (forall getter v0 st0 v st1,
        lookup_attr mro (self_dict st) X = Computed getter ->
        invoke E mro fuel getter [] [] st = (Return v0, st0) ->
        invoke E mro fuel getter [] [] st0 = (Return v, st1) ->
        (forall V st', callable E v = true ->
           call P v [] [] st1 = (Return V, st') ->
           resolved = (Return V, st'))
        /\ (callable E v = false -> resolved = (Return v, st1)))
  /\ (forall v0 st0 v st1,
        getattr P VSelf X st = (Return v0, st0) ->
        getattr P VSelf X st0 = (Return v, st1) ->
        (forall V st', callable E v = true ->
           call P v [] [] st1 = (Return V, st') ->
           resolved = (Return V, st'))
        /\ (callable E v = false -> resolved = (Return v, st1))).
Proof.
  intros P resolved. subst P resolved.
  assert (General : forall v0 st0 v st1,
            getattr (host E mro fuel) VSelf X st = (Return v0, st0) ->
            getattr (host E mro fuel) VSelf X st0 = (Return v, st1) ->
            (forall V st', callable E v = true ->
               call (host E mro fuel) v [] [] st1 = (Return V, st') ->
               _get_attr_value E (host E mro fuel) VSelf X d st
               = (Return V, st'))
            /\ (callable E v = false ->
                _get_attr_value E (host E mro fuel) VSelf X d st
                = (Return v, st1))).
  { intros v0 st0 v st1 G0 G1. split.
    - intros V st' C R. rewrite <- R.
      eapply resolve_called; eauto using hasattr_returned.
    - intros C. eapply resolve_plain; eauto using hasattr_returned. }
  repeat apply conj.
  - intros v H.
    apply (General v st v st); now apply getattr_found.
  - intros getter v0 st0 v st1 H R0 R1.
    apply (General v0 st0 v st1).
    + now rewrite (getattr_computed _ _ _ _ _ _ H).
    + now rewrite (getattr_computed _ _ _ _ _ _
                     (lookup_computed _ _ (self_dict st0) _ _ H)).
  - exact General.
Qed.

Lemma resolve_calls_callable_else_raw_witness :
  (* a method, and a plain class attribute *)
  _get_attr_value Demo.env (host Demo.env [Foo.body] 1) VSelf "hi" VNone
    (Demo.start ∅) = (Return (VStr "hi"), Demo.start ∅)
  /\ _get_attr_value Demo.env (host Demo.env [Foo.body] 1) VSelf "bar" VNone
       (Demo.start ∅) = (Return (VStr "baz"), Demo.start ∅)
  (* a property whose value is callable, and one whose value is not *)
  /\ _get_attr_value Lazy.env (host Lazy.env [Lazy.body] 1) VSelf "token" VNone
       (Demo.start ∅) = (Return (VStr "hi"), Demo.start ∅)
  /\ _get_attr_value Demo.env (host Demo.env Billing.mro 2) VSelf
       "stripe_customer" VNone (Demo.start ∅)
     = (Return (VObject [("path", VStr "Customer.retrieve");
                         ("id", VStr "cus_1")]),
        State ∅ (VStr "sk_test")
          [SdkCall ["Customer"; "retrieve"] [VStr "cus_1"] [];
           SdkCall ["Customer"; "retrieve"] [VStr "cus_1"] []]).
Proof.
  repeat apply conj.
  - destruct (resolve_calls_callable_else_raw Demo.env [Foo.body] 1
                (Demo.start ∅) "hi" VNone) as (H & _ & _).
    assert (L : lookup_attr [Foo.body] (self_dict (Demo.start ∅)) "hi"
                = Found (VMethod (MUser "hi"))) by reflexivity.
    destruct (H _ L) as [Hc _]. apply Hc; reflexivity.
  - destruct (resolve_calls_callable_else_raw Demo.env [Foo.body] 1
                (Demo.start ∅) "bar" VNone) as (H & _ & _).
    assert (L : lookup_attr [Foo.body] (self_dict (Demo.start ∅)) "bar"
                = Found (VStr "baz")) by reflexivity.
    destruct (H _ L) as [_ Hr]. apply Hr; reflexivity.
  - destruct (resolve_calls_callable_else_raw Lazy.env [Lazy.body] 1
                (Demo.start ∅) "token" VNone) as (_ & H & _).
    assert (L : lookup_attr [Lazy.body] (self_dict (Demo.start ∅)) "token"
                = Computed (MUser "maker")) by reflexivity.
    assert (R : invoke Lazy.env [Lazy.body] 1 (MUser "maker") [] []
                  (Demo.start ∅)
                = (Return (VMethod (MUser "hi")), Demo.start ∅))
      by reflexivity.
    destruct (H _ _ _ _ _ L R R) as [Hc _]. apply Hc; reflexivity.
  - destruct (resolve_calls_callable_else_raw Demo.env Billing.mro 2
                (Demo.start ∅) "stripe_customer" VNone) as (_ & H & _).
    assert (L : lookup_attr Billing.mro (self_dict (Demo.start ∅))
                  "stripe_customer" = Computed M_get_stripe_customer)
      by reflexivity.
    assert (R0 : invoke Demo.env Billing.mro 2 M_get_stripe_customer [] []
                   (Demo.start ∅)
                 = (Return (VObject [("path", VStr "Customer.retrieve");
                                     ("id", VStr "cus_1")]),
                    State ∅ (VStr "sk_test")
                      [SdkCall ["Customer"; "retrieve"] [VStr "cus_1"] []]))
      by reflexivity.
    assert (R1 : invoke Demo.env Billing.mro 2 M_get_stripe_customer [] []
                   (State ∅ (VStr "sk_test")
                      [SdkCall ["Customer"; "retrieve"] [VStr "cus_1"] []])
                 = (Return (VObject [("path", VStr "Customer.retrieve");
                                     ("id", VStr "cus_1")]),
                    State ∅ (VStr "sk_test")
                      [SdkCall ["Customer"; "retrieve"] [VStr "cus_1"] [];
                       SdkCall ["Customer"; "retrieve"] [VStr "cus_1"] []]))
      by reflexivity.
    destruct (H _ _ _ _ _ L R0 R1) as [_ Hr]. apply Hr; reflexivity.
Defined.

(** ** What the mixins never write: the host *)

Create HintDb keeps.

Lemma keeps_ret {A} (a : A) : keeps_host (ret a).
Proof. intros st. reflexivity. Qed.

Lemma keeps_raise {A} e : keeps_host (@raise A e).
Proof. intros st. reflexivity. Qed.

Lemma keeps_diverge {A} : keeps_host (@diverge A).
Proof. intros st. reflexivity. Qed.

Lemma keeps_bind {A B} (c : M A) (k : A -> M B) :
  keeps_host c -> (forall a, keeps_host (k a)) -> keeps_host (bind c k).
Proof.
  intros Hc Hk st. unfold bind. specialize (Hc st).
  destruct (c st) as [[a | e | ] st']; simpl in *; try assumption.
  now rewrite Hk.
Qed.

Lemma keeps_if {A} (b : bool) (c1 c2 : M A) :
  keeps_host c1 -> keeps_host c2 -> keeps_host (if b then c1 else c2).
Proof. now destruct b. Qed.

Lemma keeps_set_api_key v : keeps_host (set_api_key v).
Proof. intros st. reflexivity. Qed.

Lemma keeps_get_api_key : keeps_host get_api_key.
Proof. intros st. reflexivity. Qed.

Lemma keeps_sdk_invoke E path args kwargs :
  keeps_host (sdk_invoke E path args kwargs).
Proof. intros st. reflexivity. Qed.

Lemma keeps_str_split v : keeps_host (str_split v).
Proof. destruct v; intros st; reflexivity. Qed.

Lemma keeps_as_kwargs v : keeps_host (as_kwargs v).
Proof. destruct v; intros st; reflexivity. Qed.

#[global] Hint Resolve keeps_ret keeps_raise keeps_diverge keeps_bind keeps_if
  keeps_set_api_key keeps_get_api_key keeps_sdk_invoke keeps_str_split
  keeps_as_kwargs : keeps.

Lemma keeps_getattr_value E o name : keeps_host (getattr_value E o name).
Proof.
  destruct o as [ | | | | | attrs | path | | ]; simpl; auto with keeps.
  - destruct (assoc name attrs); auto with keeps.
  - destruct path; repeat apply keeps_if; auto with keeps.
Qed.
#[global] Hint Resolve keeps_getattr_value : keeps.

Section KeepsHost.

Variable E : environment.
Variable P : protocol.
Hypothesis getattr_keeps : forall o name, keeps_host (getattr P o name).
Hypothesis call_keeps : forall f args kwargs, keeps_host (call P f args kwargs).

Lemma keeps_hasattr o name : keeps_host (hasattr E P o name).
Proof.
  intros st. unfold hasattr. specialize (getattr_keeps o name st).
  destruct (getattr P o name st) as [[a | e | ] st']; simpl in *; auto.
  destruct (is_attribute_error e || hasattr_hides_all E); auto.
Qed.

Lemma keeps__get_attr_value o attr d :
  keeps_host (_get_attr_value E P o attr d).
Proof.
  unfold _get_attr_value.
  apply keeps_bind; [apply keeps_hasattr |].
  intros []; auto 6 with keeps.
Qed.

Lemma keeps_walk parts : forall v, keeps_host (walk P v parts).
Proof. induction parts; simpl; auto with keeps. Qed.

Hint Resolve keeps_hasattr keeps__get_attr_value keeps_walk : keeps.

Ltac keeps_step :=
  match goal with
  | |- keeps_host (bind _ _) => apply keeps_bind; [| intros ?]
  | |- keeps_host (if _ then _ else _) => apply keeps_if
  | |- keeps_host (_get_attr_value _ _ _ _ _) => apply keeps__get_attr_value
  | |- keeps_host (hasattr _ _ _ _) => apply keeps_hasattr
  | |- keeps_host (walk _ _ _) => apply keeps_walk
  | |- keeps_host (getattr P _ _) => apply getattr_keeps
  | |- keeps_host (call P _ _ _) => apply call_keeps
  | |- _ => solve [auto with keeps]
  end.

Lemma keeps_mixin_bodies self :
  keeps_host (StripeSyncMixin.stripe_sync E P self)
  /\ keeps_host (StripeMixin._get_stripe E P self)
  /\ keeps_host (StripeCustomerMixin._get_stripe_customer E P self)
  /\ keeps_host (StripeSubscriptionMixin._get_stripe_subscription E P self)
  /\ keeps_host (StripePlanMixin._get_stripe_plan E P self)
  /\ keeps_host (StripeInvoiceMixin._get_stripe_invoice E P self)
  /\ keeps_host (StripeInvoiceItemMixin._get_stripe_invoice E P self)
  /\ keeps_host (StripeChargeMixin._get_stripe_charge E P self).
Proof.
  unfold StripeSyncMixin.stripe_sync, StripeMixin._get_stripe,
    StripeCustomerMixin._get_stripe_customer,
    StripeSubscriptionMixin._get_stripe_subscription,
    StripePlanMixin._get_stripe_plan,
    StripeInvoiceMixin._get_stripe_invoice,
    StripeInvoiceItemMixin._get_stripe_invoice,
    StripeChargeMixin._get_stripe_charge.
  repeat split; repeat keeps_step.
Qed.

Hypothesis code_keeps :
  forall f args kwargs, keeps_host (code E f args kwargs).

Lemma keeps_run_method m args kwargs :
  keeps_host (run_method E P m args kwargs).
Proof.
  destruct (keeps_mixin_bodies VSelf) as (? & ? & ? & ? & ? & ? & ? & ?).
  destruct m, args, kwargs; simpl; auto with keeps.
Qed.

End KeepsHost.

Lemma keeps_protocol_of E mro inv :
  (forall m args kwargs, keeps_host (inv m args kwargs)) ->
  (forall o name, keeps_host (getattr (protocol_of E mro inv) o name))
  /\ (forall f args kwargs, keeps_host (call (protocol_of E mro inv) f args kwargs)).
Proof.
  intros Hinv. split.
  - intros o name.
    destruct o; try exact (keeps_getattr_value E _ name).
    intros st. simpl.
    destruct (lookup_attr mro (self_dict st) name); try reflexivity.
    apply Hinv.
  - intros f args kwargs. destruct f; simpl; auto with keeps.
Qed.

Lemma keeps_invoke E mro :
  (forall f args kwargs, keeps_host (code E f args kwargs)) ->
  forall fuel m args kwargs, keeps_host (invoke E mro fuel m args kwargs).
Proof.
  intros Hcode. induction fuel as [| n IH]; intros m args kwargs; simpl.
  - apply keeps_diverge.
  - destruct (keeps_protocol_of E mro (invoke E mro n) IH) as [Hg Hc].
    now apply keeps_run_method.
Qed.

(** C9, as stated, fails: resolving an attribute that is a method of the
    host runs that method, and the method may write to the host. *)
Lemma resolve_runs_host_method_that_writes :
  self_dict (Demo.start ∅) !! "seen" = None
  /\ self_dict (snd (_get_attr_value Demo.env (host Demo.env [Visitor.body] 1)
                      VSelf "bump" VNone (Demo.start ∅))) !! "seen"
     = Some (VBool true).
Proof. split; reflexivity. Qed.

(** The host after the resolver, by what the resolver runs: the read of
    the existence check, the read of the value and, when that value is
    callable, the call.  Where none of the three writes to the host, the
    resolver leaves the host as it was. *)
Lemma resolver_writes_nothing E P o X d st :
  self_dict (snd (getattr P o X st)) = self_dict st ->
  (forall v0 st0,
     getattr P o X st = (Return v0, st0) ->
     self_dict (snd (getattr P o X st0)) = self_dict st0) ->
  (forall v0 st0 v st1,
     getattr P o X st = (Return v0, st0) ->
     getattr P o X st0 = (Return v, st1) ->
     callable E v = true ->
     self_dict (snd (call P v [] [] st1)) = self_dict st1) ->
  self_dict (snd (_get_attr_value E P o X d st)) = self_dict st.
Proof.
  intros H1 H2 H3. unfold _get_attr_value, bind, hasattr.
  destruct (getattr P o X st) as [[v0 | e | ] st0] eqn:G0; simpl in H1.
  - specialize (H2 v0 st0 eq_refl).
    destruct (getattr P o X st0) as [[v | e | ] st1] eqn:G1; simpl in H2;
      try (simpl; congruence).
    destruct (callable E v) eqn:C.
    + rewrite (H3 v0 st0 v st1 eq_refl G1 C). congruence.
    + simpl. congruence.
  - destruct (is_attribute_error e || hasattr_hides_all E); simpl; assumption.
  - simpl. assumption.
Qed.

(** C9, amended. The resolver writes nothing to the host itself; it reads
    the attribute and calls what it holds.  So the host is as before when
    the attribute is missing or a stored value that is not callable; with a
    stored callable the host is as that callable left it; and for any
    attribute, a property included, the host is as before whenever the two
    reads of the attribute and the call of its value, the only code of the
    host the resolver runs, do not write to it.  In particular it is as
    before, for any instance, on a host none of whose functions writes. *)
Theorem resolve_keeps_host E mro fuel X d st :
  let P := host E mro fuel in
  let after := self_dict (snd (_get_attr_value E P VSelf X d st)) in
  (lookup_attr mro (self_dict st) X = Missing -> after = self_dict st)
  /\ (forall v,
        lookup_attr mro (self_dict st) X = Found v ->
        callable E v = false ->
        after = self_dict st)
  /\ (forall v,
        lookup_attr mro (self_dict st) X = Found v ->
        callable E v = true ->
        after = self_dict (snd (call P v [] [] st)))
  /\ (self_dict (snd (getattr P VSelf X st)) = self_dict st ->
      (forall v0 st0,
         getattr P VSelf X st = (Return v0, st0) ->
         self_dict (snd (getattr P VSelf X st0)) = self_dict st0) ->
      (forall v0 st0 v st1,
         getattr P VSelf X st = (Return v0, st0) ->
         getattr P VSelf X st0 = (Return v, st1) ->
         callable E v = true ->
         self_dict (snd (call P v [] [] st1)) = self_dict st1) ->
      after = self_dict st)
  /\ ((forall f args kwargs, keeps_host (code E f args kwargs)) ->
      forall instance,
        self_dict (snd (_get_attr_value E P instance X d st)) = self_dict st).
Proof.
  intros P after. subst P after. repeat apply conj.
  - intros H.
    now rewrite (resolve_absent _ _ _ _ d _ _ (hasattr_missing E mro fuel _ _ H)).
  - intros v H C.
    now rewrite (resolve_plain _ _ _ _ d _ _ _ _
                   (hasattr_found E mro fuel _ _ _ H)
                   (getattr_found E mro fuel _ _ _ H) C).
  - intros v H C.
    now rewrite (resolve_called _ _ _ _ d _ _ _ _
                   (hasattr_found E mro fuel _ _ _ H)
                   (getattr_found E mro fuel _ _ _ H) C).
  - apply resolver_writes_nothing.
  - intros Hcode instance.
    destruct (keeps_protocol_of E mro (invoke E mro fuel)
                (keeps_invoke E mro Hcode fuel)) as [Hg Hc].
    apply (keeps__get_attr_value E (host E mro fuel) Hg Hc).
Qed.

Lemma resolve_keeps_host_witness :
  (* a host with a method that writes, [bump]: resolving its other
     attributes, or one it lacks, leaves it as it was *)
  self_dict (snd (_get_attr_value Demo.env (host Demo.env Mixed.mro 1) VSelf
                    "xyz" VNone (Demo.start ∅))) = ∅
  /\ self_dict (snd (_get_attr_value Demo.env (host Demo.env Mixed.mro 1) VSelf
                       "bar" VNone (Demo.start ∅))) = ∅
  /\ self_dict (snd (_get_attr_value Demo.env (host Demo.env Mixed.mro 1) VSelf
                       "hi" VNone (Demo.start ∅))) = ∅
  (* a property, on a host whose functions could write *)
  /\ self_dict (snd (_get_attr_value Demo.env
                       (host Demo.env (Visitor.body :: Billing.mro) 2) VSelf
                       "stripe_customer" VNone (Demo.start ∅))) = ∅
  (* any attribute of a host none of whose functions writes *)
  /\ self_dict (snd (_get_attr_value Demo.quiet_env
                       (host Demo.quiet_env (Foo.body :: ZebraMixin.mro) 3)
                       VSelf "stripe_customer" VNone (Demo.start ∅))) = ∅.
Proof.
  repeat apply conj.
  - destruct (resolve_keeps_host Demo.env Mixed.mro 1 "xyz" VNone
                (Demo.start ∅)) as (H & _).
    apply H. reflexivity.
  - destruct (resolve_keeps_host Demo.env Mixed.mro 1 "bar" VNone
                (Demo.start ∅)) as (_ & H & _).
    apply (H (VStr "baz")); reflexivity.
  - destruct (resolve_keeps_host Demo.env Mixed.mro 1 "hi" VNone
                (Demo.start ∅)) as (_ & _ & H & _).
    refine (eq_trans (H (VMethod (MUser "hi")) _ _) _); reflexivity.
  - destruct (resolve_keeps_host Demo.env (Visitor.body :: Billing.mro) 2
                "stripe_customer" VNone (Demo.start ∅)) as (_ & _ & _ & H & _).
    apply H.
    + reflexivity.
    + intros v0 st0 G0. apply (f_equal snd) in G0. cbn [snd] in G0.
      subst st0. reflexivity.
    + intros v0 st0 v st1 G0 G1 C.
      apply (f_equal snd) in G0. cbn [snd] in G0. subst st0.
      apply (f_equal fst) in G1. cbn [fst] in G1.
      vm_compute in G1. injection G1 as <-. discriminate C.
  - destruct (resolve_keeps_host Demo.quiet_env (Foo.body :: ZebraMixin.mro) 3
                "stripe_customer" VNone (Demo.start ∅)) as (_ & _ & _ & _ & H).
    apply (H (fun f args kwargs st => eq_refl) VSelf).
Defined.

(** ** The SDK handle *)

Lemma get_stripe_present E P self st st0 key st1 :
  hasattr E P self "stripe_api_key" st = (Return true, st0) ->
  _get_attr_value E P self "stripe_api_key" VNone st0 = (Return key, st1) ->
  StripeMixin._get_stripe E P self st
  = (Return stripe, State (self_dict st1) key (calls st1)).
Proof.
  intros H R. unfold StripeMixin._get_stripe.
  rewrite (bind_return _ _ _ _ _ H).
  erewrite bind_return; [reflexivity |].
  now rewrite (bind_return _ _ _ _ _ R).
Qed.

Lemma get_stripe_absent E P self st st0 :
  hasattr E P self "stripe_api_key" st = (Return false, st0) ->
  StripeMixin._get_stripe E P self st = (Return stripe, st0).
Proof.
  intros H. unfold StripeMixin._get_stripe.
  now rewrite (bind_return _ _ _ _ _ H).
Qed.

Lemma get_stripe_stored E mro fuel st key :
  lookup_attr mro (self_dict st) "stripe_api_key" = Found key ->
  callable E key = false ->
  StripeMixin._get_stripe E (host E mro fuel) VSelf st
  = (Return stripe, State (self_dict st) key (calls st)).
Proof.
  intros H C. apply (get_stripe_present _ _ _ st st).
  - now apply (hasattr_found _ _ _ _ _ key).
  - eapply resolve_plain; eauto using hasattr_found, getattr_found.
Qed.

(** C5. [_get_stripe] assigns the module's [api_key] exactly when the host
    exposes [stripe_api_key]: the key it assigns is the one the resolver
    gives, the handle is returned afterwards, and this happens on every
    request whatever key was configured before; a host without the
    attribute gets the handle and the state is untouched. *)
Theorem get_stripe_sets_key_iff_exposed E mro fuel st :
  let P := host E mro fuel in
  (forall st0 key st1,
     hasattr E P VSelf "stripe_api_key" st = (Return true, st0) ->
     _get_attr_value E P VSelf "stripe_api_key" VNone st0 = (Return key, st1) ->
     StripeMixin._get_stripe E P VSelf st
     = (Return stripe, State (self_dict st1) key (calls st1)))
  /\ (forall st0,
        hasattr E P VSelf "stripe_api_key" st = (Return false, st0) ->
        StripeMixin._get_stripe E P VSelf st = (Return stripe, st0))
  /\ (lookup_attr mro (self_dict st) "stripe_api_key" = Missing ->
      StripeMixin._get_stripe E P VSelf st = (Return stripe, st))
  /\ (forall key,
        lookup_attr mro (self_dict st) "stripe_api_key" = Found key ->
        callable E key = false ->
        StripeMixin._get_stripe E P VSelf st
        = (Return stripe, State (self_dict st) key (calls st))).
Proof.
  intros P. repeat split.
  - intros st0 key st1. apply get_stripe_present.
  - intros st0. apply get_stripe_absent.
  - intros H. apply get_stripe_absent. now apply hasattr_missing.
  - intros key. apply get_stripe_stored.
Qed.

Lemma get_stripe_sets_key_iff_exposed_witness :
  (* a key configured earlier is replaced by the host's *)
  StripeMixin._get_stripe Demo.env
    (host Demo.env (Account.body :: ZebraMixin.mro) 0) VSelf
    (State ∅ (VStr "sk_old") [])
  = (Return stripe, State ∅ (VStr "sk_test") [])
  (* and stays when the host has none *)
  /\ StripeMixin._get_stripe Demo.env (host Demo.env ZebraMixin.mro 0) VSelf
       (State ∅ (VStr "sk_old") [])
     = (Return stripe, State ∅ (VStr "sk_old") []).
Proof.
  split.
  - destruct (get_stripe_sets_key_iff_exposed Demo.env
                (Account.body :: ZebraMixin.mro) 0 (State ∅ (VStr "sk_old") []))
      as (_ & _ & _ & H).
    apply (H (VStr "sk_test")); reflexivity.
  - destruct (get_stripe_sets_key_iff_exposed Demo.env ZebraMixin.mro 0
                (State ∅ (VStr "sk_old") [])) as (_ & _ & H & _).
    apply H; reflexivity.
Defined.

(** ** The subscription accessor *)

Lemma field_of_resource E st attrs name :
  field E st (VObject attrs) name = assoc name attrs.
Proof. unfold field. simpl. now destruct (assoc name attrs). Qed.

Lemma getattr_value_outcome E o name st :
  getattr_value E o name st
  = match field E st o name with
    | Some v => (Return v, st)
    | None => (Raise AttributeError, st)
    end.
Proof.
  unfold field.
  destruct o as [ | | | | | attrs | path | | ]; simpl; try reflexivity.
  - now destruct (assoc name attrs).
  - destruct path; simpl.
    + destruct (name =? "api_key"); [reflexivity |].
      now destruct (sdk_has E [name]).
    + now destruct (sdk_has E _).
Qed.

Lemma getattr_other E mro inv o name :
  o <> VSelf ->
  getattr (protocol_of E mro inv) o name = getattr_value E o name.
Proof. intros H. destruct o; try reflexivity. now destruct H. Qed.

(** C6. The subscription accessor resolves the host's [stripe_customer]
    and answers with the [subscription] attribute of what it got, or with
    [None] when that object has no such attribute.  The state it leaves,
    the log of SDK invocations included, is the one resolving the customer
    and reading the attribute left: the accessor invokes nothing itself. *)
Theorem subscription_reads_customer_field E mro fuel st customer st1 :
  let P := host E mro fuel in
  _get_attr_value E P VSelf "stripe_customer" VNone st = (Return customer, st1) ->
  (* the customer is a resource, or any value but the host itself *)
  (customer <> VSelf ->
   StripeSubscriptionMixin._get_stripe_subscription E P VSelf st
   = (Return (default VNone (field E st1 customer "subscription")), st1))
  (* whatever the customer is, by the existence check on it *)
  /\ (forall st2,
        hasattr E P customer "subscription" st1 = (Return false, st2) ->
        StripeSubscriptionMixin._get_stripe_subscription E P VSelf st
        = (Return VNone, st2))
  /\ (forall st2,
        hasattr E P customer "subscription" st1 = (Return true, st2) ->
        StripeSubscriptionMixin._get_stripe_subscription E P VSelf st
        = getattr P customer "subscription" st2).
Proof.
  intros P R. unfold StripeSubscriptionMixin._get_stripe_subscription.
  rewrite (bind_return _ _ _ _ _ R). repeat split.
  - intros Hc. unfold bind, hasattr, P, host.
    rewrite (getattr_other _ _ _ _ _ Hc). rewrite getattr_value_outcome.
    destruct (field E st1 customer "subscription") as [v |] eqn:F; simpl.
    + rewrite getattr_value_outcome. now rewrite F.
    + reflexivity.
  - intros st2 H. now rewrite (bind_return _ _ _ _ _ H).
  - intros st2 H. now rewrite (bind_return _ _ _ _ _ H).
Qed.

Lemma subscription_reads_customer_field_witness :
  StripeSubscriptionMixin._get_stripe_subscription Demo.env
    (host Demo.env [Member.body; StripeSubscriptionMixin.body] 0) VSelf
    (Demo.start ∅)
  = (Return (VStr "sub_1"), Demo.start ∅)
  /\ StripeSubscriptionMixin._get_stripe_subscription Demo.env
       (host Demo.env [Guest.body; StripeSubscriptionMixin.body] 0) VSelf
       (Demo.start ∅)
     = (Return VNone, Demo.start ∅).
Proof.
  split.
  - destruct (subscription_reads_customer_field Demo.env
                [Member.body; StripeSubscriptionMixin.body] 0 (Demo.start ∅)
                (VObject [("subscription", VStr "sub_1")]) (Demo.start ∅))
      as (H & _ & _); [reflexivity |].
    apply H. discriminate.
  - destruct (subscription_reads_customer_field Demo.env
                [Guest.body; StripeSubscriptionMixin.body] 0 (Demo.start ∅)
                (VObject [("id", VStr "cus_1")]) (Demo.start ∅))
      as (H & _ & _); [reflexivity |].
    apply H. discriminate.
Defined.

(** ** The accessors that retrieve a resource by id *)

Lemma plan_shape E P self :
  StripePlanMixin._get_stripe_plan E P self
  = retrieve_by_id E P "Plan" "stripe_plan_id" self.
Proof. reflexivity. Qed.

Lemma invoice_shape E P self :
  StripeInvoiceMixin._get_stripe_invoice E P self
  = retrieve_by_id E P "Invoice" "stripe_invoice_id" self.
Proof. reflexivity. Qed.

Lemma invoice_item_shape E P self :
  StripeInvoiceItemMixin._get_stripe_invoice E P self
  = retrieve_by_id E P "Invoice" "stripe_invoice_item_id" self.
Proof. reflexivity. Qed.

Lemma charge_shape E P self :
  StripeChargeMixin._get_stripe_charge E P self
  = retrieve_by_id E P "Charge" "stripe_charge_id" self.
Proof. reflexivity. Qed.

(** Reading a resource type and its [retrieve] off the module. *)
Lemma module_resource E mro inv resource st :
  String.eqb resource "api_key" = false ->
  sdk_has E [resource] = true ->
  getattr (protocol_of E mro inv) stripe resource st
  = (Return (VSdk [resource]), st).
Proof. intros Hn Hr. simpl. now rewrite Hn, Hr. Qed.

Lemma resource_retrieve E mro inv resource st :
  sdk_has E [resource; "retrieve"] = true ->
  getattr (protocol_of E mro inv) (VSdk [resource]) "retrieve" st
  = (Return (VSdk [resource; "retrieve"]), st).
Proof. intros Hr. simpl. now rewrite Hr. Qed.

(** On an SDK that has the resource type with a callable [retrieve], the
    getter invokes exactly that operation, with the id the resolver gave as
    its one argument. *)
Lemma retrieve_by_id_invokes E mro fuel resource attr st id st1 :
  String.eqb resource "api_key" = false ->
  sdk_has E [resource] = true ->
  sdk_has E [resource; "retrieve"] = true ->
  sdk_callable E [resource; "retrieve"] = true ->
  _get_attr_value E (host E mro fuel) VSelf attr VNone st = (Return id, st1) ->
  retrieve_by_id E (host E mro fuel) resource attr VSelf st
  = sdk_invoke E [resource; "retrieve"] [id] [] st1.
Proof.
  intros Hn Hr Hop Hc R. unfold retrieve_by_id, host.
  rewrite (bind_return _ _ _ _ _ (module_resource _ _ _ _ _ Hn Hr)).
  rewrite (bind_return _ _ _ _ _ (resource_retrieve _ _ _ _ _ Hop)).
  rewrite (bind_return _ _ _ _ _ R). simpl. now rewrite Hc.
Qed.

(** ** The API key and the accessors *)

(** The key after such a getter is the key before it, or the key
    resolving the id left: the getter assigns none itself. *)
Lemma retrieve_by_id_key E mro fuel resource attr st :
  String.eqb resource "api_key" = false ->
  api_key (snd (retrieve_by_id E (host E mro fuel) resource attr VSelf st))
  = api_key st
  \/ api_key (snd (retrieve_by_id E (host E mro fuel) resource attr VSelf st))
     = api_key (snd (_get_attr_value E (host E mro fuel) VSelf attr VNone st)).
Proof.
  intros Hn. unfold retrieve_by_id, bind.
  simpl getattr at 1 3. rewrite Hn.
  destruct (sdk_has E [resource]); [| now left].
  simpl. destruct (sdk_has E [resource; "retrieve"]); [| now left].
  simpl. right.
  destruct (_get_attr_value E (host E mro fuel) VSelf attr VNone st)
    as [[id | e | ] st1]; simpl; try reflexivity.
  destruct (sdk_callable E [resource; "retrieve"]); reflexivity.
Qed.

Lemma retrieve_by_id_keeps_key E mro fuel resource attr st :
  String.eqb resource "api_key" = false ->
  keeps_key (_get_attr_value E (host E mro fuel) VSelf attr VNone) st ->
  keeps_key (retrieve_by_id E (host E mro fuel) resource attr VSelf) st.
Proof.
  unfold keeps_key. intros Hn R.
  destruct (retrieve_by_id_key E mro fuel resource attr st Hn) as [H | H];
    rewrite H; auto.
Qed.

(** The customer getter on a host that takes [stripe] from [StripeMixin]
    and stores a key: the key is the configured one before the id is
    resolved and the retrieve operation is invoked. *)
Lemma customer_sets_key_first E mro fuel st key :
  lookup_attr mro (self_dict st) "stripe" = Computed M_get_stripe ->
  lookup_attr mro (self_dict st) "stripe_api_key" = Found key ->
  callable E key = false ->
  sdk_has E ["Customer"] = true ->
  sdk_has E ["Customer"; "retrieve"] = true ->
  StripeCustomerMixin._get_stripe_customer E (host E mro (S fuel)) VSelf st
  = (id <- _get_attr_value E (host E mro (S fuel)) VSelf
             "stripe_customer_id" VNone ;;
     call (host E mro (S fuel)) (VSdk ["Customer"; "retrieve"]) [id] [])
      (State (self_dict st) key (calls st)).
Proof.
  intros Hs Hk C Hr Hop. unfold StripeCustomerMixin._get_stripe_customer.
  assert (G : getattr (host E mro (S fuel)) VSelf "stripe" st
              = (Return stripe, State (self_dict st) key (calls st))).
  { rewrite getattr_self, Hs. simpl invoke.
    now apply get_stripe_stored. }
  rewrite (bind_return _ _ _ _ _ G). unfold host.
  rewrite (bind_return _ _ _ _ _
             (module_resource _ _ _ "Customer" _ eq_refl Hr)).
  now rewrite (bind_return _ _ _ _ _ (resource_retrieve _ _ _ _ _ Hop)).
Qed.

(** C10. The plan, invoice, invoice item and charge getters work on the
    module itself: whatever the host's [stripe] is, each resolves its id
    and invokes the retrieve operation below the module once, with that id
    ([Invoice.retrieve] for the invoice item getter too), in the state
    resolving the id left.  They assign no key: on every host, also on one
    that exposes [stripe_api_key], the key configured after the getter is
    the one configured before it or, once the id has been resolved, the
    one that resolving the id left.  The customer getter goes through the
    host's [stripe]; where that is [StripeMixin]'s property and the host
    stores a key, that key is configured before the id is resolved and the
    retrieve operation invoked. *)
Theorem direct_accessors_never_set_key E mro fuel st :
  let P := host E mro fuel in
  let key_after (c : M value) := api_key (snd (c st)) in
  (* the four getters invoke the module's operation directly *)
  (forall id st1,
     sdk_has E ["Plan"] = true -> sdk_has E ["Plan"; "retrieve"] = true ->
     sdk_callable E ["Plan"; "retrieve"] = true ->
     _get_attr_value E P VSelf "stripe_plan_id" VNone st = (Return id, st1) ->
     StripePlanMixin._get_stripe_plan E P VSelf st
     = (sdk_reply E (api_key st1) (SdkCall ["Plan"; "retrieve"] [id] []),
        State (self_dict st1) (api_key st1)
          (calls st1 ++ [SdkCall ["Plan"; "retrieve"] [id] []])))
  /\ (forall id st1,
        sdk_has E ["Invoice"] = true -> sdk_has E ["Invoice"; "retrieve"] = true ->
        sdk_callable E ["Invoice"; "retrieve"] = true ->
        _get_attr_value E P VSelf "stripe_invoice_id" VNone st = (Return id, st1) ->
        StripeInvoiceMixin._get_stripe_invoice E P VSelf st
        = (sdk_reply E (api_key st1) (SdkCall ["Invoice"; "retrieve"] [id] []),
           State (self_dict st1) (api_key st1)
             (calls st1 ++ [SdkCall ["Invoice"; "retrieve"] [id] []])))
  /\ (forall id st1,
        sdk_has E ["Invoice"] = true -> sdk_has E ["Invoice"; "retrieve"] = true ->
        sdk_callable E ["Invoice"; "retrieve"] = true ->
        _get_attr_value E P VSelf "stripe_invoice_item_id" VNone st
        = (Return id, st1) ->
        StripeInvoiceItemMixin._get_stripe_invoice E P VSelf st
        = (sdk_reply E (api_key st1) (SdkCall ["Invoice"; "retrieve"] [id] []),
           State (self_dict st1) (api_key st1)
             (calls st1 ++ [SdkCall ["Invoice"; "retrieve"] [id] []])))
  /\ (forall id st1,
        sdk_has E ["Charge"] = true -> sdk_has E ["Charge"; "retrieve"] = true ->
        sdk_callable E ["Charge"; "retrieve"] = true ->
        _get_attr_value E P VSelf "stripe_charge_id" VNone st = (Return id, st1) ->
        StripeChargeMixin._get_stripe_charge E P VSelf st
        = (sdk_reply E (api_key st1) (SdkCall ["Charge"; "retrieve"] [id] []),
           State (self_dict st1) (api_key st1)
             (calls st1 ++ [SdkCall ["Charge"; "retrieve"] [id] []])))
  (* and assign no key *)
  /\ (key_after (StripePlanMixin._get_stripe_plan E P VSelf) = api_key st
      \/ key_after (StripePlanMixin._get_stripe_plan E P VSelf)
         = key_after (_get_attr_value E P VSelf "stripe_plan_id" VNone))
  /\ (key_after (StripeInvoiceMixin._get_stripe_invoice E P VSelf) = api_key st
      \/ key_after (StripeInvoiceMixin._get_stripe_invoice E P VSelf)
         = key_after (_get_attr_value E P VSelf "stripe_invoice_id" VNone))
  /\ (key_after (StripeInvoiceItemMixin._get_stripe_invoice E P VSelf)
      = api_key st
      \/ key_after (StripeInvoiceItemMixin._get_stripe_invoice E P VSelf)
         = key_after (_get_attr_value E P VSelf "stripe_invoice_item_id" VNone))
  /\ (key_after (StripeChargeMixin._get_stripe_charge E P VSelf) = api_key st
      \/ key_after (StripeChargeMixin._get_stripe_charge E P VSelf)
         = key_after (_get_attr_value E P VSelf "stripe_charge_id" VNone))
  (* the customer getter takes the handle from the host, which sets the key *)
  /\ (forall key,
        lookup_attr mro (self_dict st) "stripe" = Computed M_get_stripe ->
        lookup_attr mro (self_dict st) "stripe_api_key" = Found key ->
        callable E key = false ->
        sdk_has E ["Customer"] = true ->
        sdk_has E ["Customer"; "retrieve"] = true ->
        StripeCustomerMixin._get_stripe_customer E (host E mro (S fuel)) VSelf st
        = (id <- _get_attr_value E (host E mro (S fuel)) VSelf
                   "stripe_customer_id" VNone ;;
           call (host E mro (S fuel)) (VSdk ["Customer"; "retrieve"]) [id] [])
            (State (self_dict st) key (calls st)))
  /\ (forall key id,
        lookup_attr mro (self_dict st) "stripe" = Computed M_get_stripe ->
        lookup_attr mro (self_dict st) "stripe_api_key" = Found key ->
        callable E key = false ->
        lookup_attr mro (self_dict st) "stripe_customer_id" = Found id ->
        callable E id = false ->
        sdk_has E ["Customer"] = true ->
        sdk_has E ["Customer"; "retrieve"] = true ->
        sdk_callable E ["Customer"; "retrieve"] = true ->
        StripeCustomerMixin._get_stripe_customer E (host E mro (S fuel)) VSelf st
        = (sdk_reply E key (SdkCall ["Customer"; "retrieve"] [id] []),
           State (self_dict st) key
             (calls st ++ [SdkCall ["Customer"; "retrieve"] [id] []]))).
Proof.
  intros P key_after. subst P key_after. repeat apply conj.
  - intros id st1 Hr Hop Hc R. rewrite plan_shape.
    now rewrite (retrieve_by_id_invokes E mro fuel "Plan" _ st id st1).
  - intros id st1 Hr Hop Hc R. rewrite invoice_shape.
    now rewrite (retrieve_by_id_invokes E mro fuel "Invoice" _ st id st1).
  - intros id st1 Hr Hop Hc R. rewrite invoice_item_shape.
    now rewrite (retrieve_by_id_invokes E mro fuel "Invoice" _ st id st1).
  - intros id st1 Hr Hop Hc R. rewrite charge_shape.
    now rewrite (retrieve_by_id_invokes E mro fuel "Charge" _ st id st1).
  - rewrite plan_shape. now apply retrieve_by_id_key.
  - rewrite invoice_shape. now apply retrieve_by_id_key.
  - rewrite invoice_item_shape. now apply retrieve_by_id_key.
  - rewrite charge_shape. now apply retrieve_by_id_key.
  - intros key. apply customer_sets_key_first.
  - intros key id Hs Hk Ck Hi Ci Hr Hop Hc.
    rewrite (customer_sets_key_first E mro fuel st key Hs Hk Ck Hr Hop).
    erewrite bind_return.
    2:{ eapply resolve_plain.
        - apply (hasattr_found E mro (S fuel) _ _ id). exact Hi.
        - apply (getattr_found E mro (S fuel)). exact Hi.
        - exact Ci. }
    simpl. now rewrite Hc.
Qed.

Lemma direct_accessors_never_set_key_witness :
  (* a host that exposes a key: the plan getter invokes [Plan.retrieve]
     under the key configured before, which it leaves in place *)
  StripePlanMixin._get_stripe_plan Demo.env (host Demo.env Billing.mro 0) VSelf
    (State ∅ (VStr "sk_old") [])
  = (Return (VObject [("path", VStr "Plan.retrieve"); ("id", VStr "gold")]),
     State ∅ (VStr "sk_old") [SdkCall ["Plan"; "retrieve"] [VStr "gold"] []])
  /\ api_key (snd (StripePlanMixin._get_stripe_plan Demo.env
                     (host Demo.env Billing.mro 0) VSelf (Demo.start ∅)))
     = VNone
  (* the customer getter configures the host's key *)
  /\ api_key (snd (StripeCustomerMixin._get_stripe_customer Demo.env
                     (host Demo.env Billing.mro 1) VSelf (Demo.start ∅)))
     = VStr "sk_test"
  /\ StripeCustomerMixin._get_stripe_customer Demo.env
       (host Demo.env Billing.mro 1) VSelf (State ∅ (VStr "sk_old") [])
     = (Return (VObject [("path", VStr "Customer.retrieve");
                         ("id", VStr "cus_1")]),
        State ∅ (VStr "sk_test")
          [SdkCall ["Customer"; "retrieve"] [VStr "cus_1"] []]).
Proof.
  repeat apply conj.
  - destruct (direct_accessors_never_set_key Demo.env Billing.mro 0
                (State ∅ (VStr "sk_old") [])) as (H & _).
    apply (H (VStr "gold") (State ∅ (VStr "sk_old") [])); reflexivity.
  - destruct (direct_accessors_never_set_key Demo.env Billing.mro 0
                (Demo.start ∅)) as (_ & _ & _ & _ & Hplan & _).
    destruct Hplan as [H | H]; rewrite H; reflexivity.
  - destruct (direct_accessors_never_set_key Demo.env Billing.mro 0
                (Demo.start ∅)) as (_ & _ & _ & _ & _ & _ & _ & _ & H & _).
    rewrite (H (VStr "sk_test")); reflexivity.
  - destruct (direct_accessors_never_set_key Demo.env Billing.mro 0
                (State ∅ (VStr "sk_old") []))
      as (_ & _ & _ & _ & _ & _ & _ & _ & _ & H).
    apply (H (VStr "sk_test") (VStr "cus_1")); reflexivity.
Defined.

(** ** The accessors, one by one *)

(** The plan, invoice and charge getters invoke the retrieve operation of
    the resource type they are named after. *)
Lemma named_accessors_retrieve_their_resource E mro fuel st id st1 :
  let P := host E mro fuel in
  (sdk_has E ["Plan"] = true -> sdk_has E ["Plan"; "retrieve"] = true ->
   sdk_callable E ["Plan"; "retrieve"] = true ->
   _get_attr_value E P VSelf "stripe_plan_id" VNone st = (Return id, st1) ->
   StripePlanMixin._get_stripe_plan E P VSelf st
   = sdk_invoke E ["Plan"; "retrieve"] [id] [] st1)
  /\ (sdk_has E ["Invoice"] = true -> sdk_has E ["Invoice"; "retrieve"] = true ->
      sdk_callable E ["Invoice"; "retrieve"] = true ->
      _get_attr_value E P VSelf "stripe_invoice_id" VNone st = (Return id, st1) ->
      StripeInvoiceMixin._get_stripe_invoice E P VSelf st
      = sdk_invoke E ["Invoice"; "retrieve"] [id] [] st1)
  /\ (sdk_has E ["Charge"] = true -> sdk_has E ["Charge"; "retrieve"] = true ->
      sdk_callable E ["Charge"; "retrieve"] = true ->
      _get_attr_value E P VSelf "stripe_charge_id" VNone st = (Return id, st1) ->
      StripeChargeMixin._get_stripe_charge E P VSelf st
      = sdk_invoke E ["Charge"; "retrieve"] [id] [] st1).
Proof.
  intros P. repeat split; intros.
  - rewrite plan_shape. now apply retrieve_by_id_invokes.
  - rewrite invoice_shape. now apply retrieve_by_id_invokes.
  - rewrite charge_shape. now apply retrieve_by_id_invokes.
Qed.

(** The getter of [StripeInvoiceItemMixin] invokes the retrieve operation
    of [Invoice], whatever else the SDK offers. *)
Lemma invoice_item_getter_retrieves_invoice E mro fuel st id st1 :
  sdk_has E ["Invoice"] = true ->
  sdk_has E ["Invoice"; "retrieve"] = true ->
  sdk_callable E ["Invoice"; "retrieve"] = true ->
  _get_attr_value E (host E mro fuel) VSelf "stripe_invoice_item_id" VNone st
  = (Return id, st1) ->
  StripeInvoiceItemMixin._get_stripe_invoice E (host E mro fuel) VSelf st
  = sdk_invoke E ["Invoice"; "retrieve"] [id] [] st1.
Proof.
  intros. rewrite invoice_item_shape. now apply retrieve_by_id_invokes.
Qed.

(** C2, at the invoice item mixin.  The SDK of the example has
    [InvoiceItem.retrieve]; the host's accessor, which the class binds to the
    name [stripe_invoice], sends the invoice item id to [Invoice.retrieve],
    and the host has no [stripe_invoice_item]. *)
Theorem invoice_item_accessor_calls_invoice_retrieve :
  sdk_callable Demo.env ["InvoiceItem"; "retrieve"] = true
  /\ getattr (host Demo.env LineItem.mro 1) VSelf "stripe_invoice" (Demo.start ∅)
     = (Return (VObject [("path", VStr "Invoice.retrieve"); ("id", VStr "ii_1")]),
        State ∅ VNone [SdkCall ["Invoice"; "retrieve"] [VStr "ii_1"] []])
  /\ getattr (host Demo.env LineItem.mro 1) VSelf "stripe_invoice_item"
       (Demo.start ∅)
     = (Raise AttributeError, Demo.start ∅).
Proof. repeat split; reflexivity. Qed.

(** ** The aggregate class *)

(** Every accessor but the invoice item one is, on the aggregate, the
    getter its own mixin binds. *)
Lemma aggregate_binds_the_mixin_getters :
  find_member "stripe" ZebraMixin.mro = find_member "stripe" [StripeMixin.body]
  /\ find_member "stripe_customer" ZebraMixin.mro
     = find_member "stripe_customer" [StripeCustomerMixin.body]
  /\ find_member "stripe_subscription" ZebraMixin.mro
     = find_member "stripe_subscription" [StripeSubscriptionMixin.body]
  /\ find_member "stripe_plan" ZebraMixin.mro
     = find_member "stripe_plan" [StripePlanMixin.body]
  /\ find_member "stripe_invoice" ZebraMixin.mro
     = find_member "stripe_invoice" [StripeInvoiceMixin.body]
  /\ find_member "stripe_charge" ZebraMixin.mro
     = find_member "stripe_charge" [StripeChargeMixin.body].
Proof. repeat split; reflexivity. Qed.

(** No name of the aggregate leads to the getter of
    [StripeInvoiceItemMixin]: the two names that class binds are bound
    earlier in the resolution order, by [StripeInvoiceMixin]. *)
Lemma aggregate_never_binds_item_getter name :
  find_member name ZebraMixin.mro <> Some (Property M_get_stripe_invoice_item)
  /\ find_member name ZebraMixin.mro <> Some (Function M_get_stripe_invoice_item).
Proof.
  unfold ZebraMixin.mro, find_member, ZebraMixin.body, StripeMixin.body,
    StripeCustomerMixin.body, StripeSubscriptionMixin.body,
    StripePlanMixin.body, StripeInvoiceMixin.body,
    StripeInvoiceItemMixin.body, StripeChargeMixin.body.
  repeat (rewrite ?lookup_empty, ?lookup_insert; repeat case_decide; subst;
          try (split; discriminate)).
Qed.

(** C4, at the invoice item accessor.  On a host of the aggregate class the
    name [stripe_invoice] is the invoice getter and reads
    [stripe_invoice_id]; the same host built on [StripeInvoiceItemMixin]
    alone reads [stripe_invoice_item_id] there; the aggregate has no
    [stripe_invoice_item]. *)
Theorem aggregate_shadows_invoice_item_accessor :
  lookup_attr Billing.mro ∅ "stripe_invoice" = Computed M_get_stripe_invoice
  /\ lookup_attr [Billing.body; StripeInvoiceItemMixin.body] ∅ "stripe_invoice"
     = Computed M_get_stripe_invoice_item
  /\ lookup_attr Billing.mro ∅ "stripe_invoice_item" = Missing
  /\ calls (snd (getattr (host Demo.env Billing.mro 1) VSelf "stripe_invoice"
                   (Demo.start ∅)))
     = [SdkCall ["Invoice"; "retrieve"] [VStr "in_1"] []]
  /\ calls (snd (getattr (host Demo.env [Billing.body; StripeInvoiceItemMixin.body] 1)
                   VSelf "stripe_invoice" (Demo.start ∅)))
     = [SdkCall ["Invoice"; "retrieve"] [VStr "ii_1"] []].
Proof. repeat split; reflexivity. Qed.

(** ** The sync method *)

Section SyncGate.

Variables (E : environment) (mro : list (gmap string member)) (fuel : nat).
Variable st : state.
Variable bound : value.
(* [self.stripe_sync] is what the first test of the gate reads; on a host
   that does not rebind the name it is the bound method, which is true *)
Hypothesis gate_first :
  lookup_attr mro (self_dict st) "stripe_sync" = Found bound.
Hypothesis bound_true : truthy bound = true.

(** With empty keyword arguments the method does nothing. *)
Lemma sync_noop_without_kwargs kwargs :
  lookup_attr mro (self_dict st) "stripe_sync_kwargs" = Found kwargs ->
  truthy kwargs = false ->
  StripeSyncMixin.stripe_sync E (host E mro fuel) VSelf st
  = (Return VNone, st).
Proof.
  intros Hk Tk. unfold StripeSyncMixin.stripe_sync.
  rewrite (bind_return _ _ _ _ _ (getattr_found E mro fuel _ _ _ gate_first)).
  rewrite bound_true. cbn [negb].
  rewrite (bind_return _ _ _ _ _ (getattr_found E mro fuel _ _ _ Hk)).
  rewrite Tk. reflexivity.
Qed.

(** With an empty method name the method does nothing. *)
Lemma sync_noop_without_method kwargs name :
  lookup_attr mro (self_dict st) "stripe_sync_kwargs" = Found kwargs ->
  truthy kwargs = true ->
  lookup_attr mro (self_dict st) "stripe_sync_method" = Found name ->
  truthy name = false ->
  StripeSyncMixin.stripe_sync E (host E mro fuel) VSelf st
  = (Return VNone, st).
Proof.
  intros Hk Tk Hn Tn. unfold StripeSyncMixin.stripe_sync.
  rewrite (bind_return _ _ _ _ _ (getattr_found E mro fuel _ _ _ gate_first)).
  rewrite bound_true. cbn [negb].
  rewrite (bind_return _ _ _ _ _ (getattr_found E mro fuel _ _ _ Hk)).
  rewrite Tk. cbn [negb].
  rewrite (bind_return _ _ _ _ _ (getattr_found E mro fuel _ _ _ Hn)).
  rewrite Tn. reflexivity.
Qed.

(** Past the gate the method reads [self.stripe_method]; a host without
    that attribute gets [AttributeError] and nothing is invoked.  The
    value of [stripe_sync_enabled] plays no part. *)
Lemma sync_needs_stripe_method kwargs name :
  lookup_attr mro (self_dict st) "stripe_sync_kwargs" = Found kwargs ->
  truthy kwargs = true ->
  lookup_attr mro (self_dict st) "stripe_sync_method" = Found name ->
  truthy name = true ->
  lookup_attr mro (self_dict st) "stripe_method" = Missing ->
  StripeSyncMixin.stripe_sync E (host E mro fuel) VSelf st
  = (Raise AttributeError, st).
Proof.
  intros Hk Tk Hn Tn Hm. unfold StripeSyncMixin.stripe_sync.
  rewrite (bind_return _ _ _ _ _ (getattr_found E mro fuel _ _ _ gate_first)).
  rewrite bound_true. cbn [negb].
  rewrite (bind_return _ _ _ _ _ (getattr_found E mro fuel _ _ _ Hk)).
  rewrite Tk. cbn [negb].
  rewrite (bind_return _ _ _ _ _ (getattr_found E mro fuel _ _ _ Hn)).
  rewrite Tn. cbn [negb].
  now rewrite (bind_raise _ _ _ _ _ (getattr_missing E mro fuel _ _ Hm)).
Qed.

(** Past the gate, a callable [self.stripe_method] is called with the
    keyword arguments, whatever [stripe_sync_enabled] says. *)
Lemma sync_calls_stripe_method items name f :
  lookup_attr mro (self_dict st) "stripe_sync_kwargs" = Found (VDict items) ->
  items <> [] ->
  lookup_attr mro (self_dict st) "stripe_sync_method" = Found name ->
  truthy name = true ->
  lookup_attr mro (self_dict st) "stripe_method" = Found f ->
  callable E f = true ->
  StripeSyncMixin.stripe_sync E (host E mro fuel) VSelf st
  = (_ <- call (host E mro fuel) f [] items ;; ret VNone) st.
Proof.
  intros Hk Tk Hn Tn Hm Cf. unfold StripeSyncMixin.stripe_sync.
  rewrite (bind_return _ _ _ _ _ (getattr_found E mro fuel _ _ _ gate_first)).
  rewrite bound_true. cbn [negb].
  rewrite (bind_return _ _ _ _ _ (getattr_found E mro fuel _ _ _ Hk)).
  assert (truthy (VDict items) = true) as -> by (now destruct items).
  cbn [negb].
  rewrite (bind_return _ _ _ _ _ (getattr_found E mro fuel _ _ _ Hn)).
  rewrite Tn. cbn [negb].
  rewrite (bind_return _ _ _ _ _ (getattr_found E mro fuel _ _ _ Hm)).
  rewrite Cf.
  erewrite bind_return; [| reflexivity]. rewrite Cf.
  now rewrite (bind_return _ _ _ _ _ (getattr_found E mro fuel _ _ _ Hk)).
Qed.

End SyncGate.

(** C1, at a host with syncing switched off.  The gate tests
    [self.stripe_sync], the bound method, and never reads
    [stripe_sync_enabled]: with keyword arguments and a method name set,
    [Customer.create] is invoked all the same. *)
Theorem sync_disabled_still_invokes :
  lookup_attr Muted.mro ∅ "stripe_sync_enabled" = Found (VBool false)
  /\ lookup_attr Muted.mro ∅ "stripe_sync" = Found (VMethod M_stripe_sync)
  /\ invoke Demo.env Muted.mro 2 M_stripe_sync [] [] (Demo.start ∅)
     = (Return VNone,
        State ∅ VNone
          [SdkCall ["Customer"; "create"] [] [("email", VStr "a@b.com")]]).
Proof. repeat split; reflexivity. Qed.

(** C3, at a host with syncing switched on, keyword arguments and the
    method name ["Customer.create"].  The method reads [self.stripe_method],
    which neither the mixin nor the host defines: the call ends in
    [AttributeError] and nothing is invoked. *)
Theorem sync_enabled_raises_attribute_error :
  lookup_attr Signup.mro ∅ "stripe_sync_enabled" = Found (VBool true)
  /\ lookup_attr Signup.mro ∅ "stripe_sync_method" = Found (VStr "Customer.create")
  /\ lookup_attr Signup.mro ∅ "stripe_method" = Missing
  /\ invoke Demo.env Signup.mro 2 M_stripe_sync [] [] (Demo.start ∅)
     = (Raise AttributeError, Demo.start ∅).
Proof. repeat split; reflexivity. Qed.

(** * Beyond the claims *)

(** ** Splitting the method name *)

Lemma split_cons sep s : exists part parts, split sep s = part :: parts.
Proof.
  destruct s as [| c rest]; simpl; eauto.
  destruct (Ascii.eqb c sep); eauto.
  destruct (split sep rest); eauto.
Qed.

(** X6. Joining the parts of [s.split(sep)] with the separator gives [s]
    back, and no part holds the separator. *)
Theorem split_join_round_trip sep s :
  String.concat (String sep EmptyString) (split sep s) = s
  /\ Forall (fun part => ~ In sep (list_ascii_of_string part)) (split sep s).
Proof.
  induction s as [| c rest [IHjoin IHfree]]; simpl.
  - split; [reflexivity |]. constructor; [intros [] | constructor].
  - destruct (Ascii.eqb c sep) eqn:Hc.
    + apply Ascii.eqb_eq in Hc. subst c. split.
      * destruct (split_cons sep rest) as (part & parts & Hs).
        rewrite Hs in *. now rewrite <- IHjoin.
      * constructor; [intros [] | assumption].
    + apply Ascii.eqb_neq in Hc.
      destruct (split sep rest) as [| part parts] eqn:Hs.
      * destruct (split_cons sep rest) as (? & ? & Hs'). congruence.
      * split.
        -- rewrite <- IHjoin. now destruct parts.
        -- inversion IHfree as [| ? ? Hpart Hparts]; subst.
           constructor; [| assumption].
           simpl. intros [Heq | Hin]; [now apply Hc | now apply Hpart].
Qed.

(** ** Walking a dotted path below the module *)

Lemma walk_below E mro inv parts : forall path st,
  path <> [] ->
  reachable E path parts = true ->
  walk (protocol_of E mro inv) (VSdk path) parts st
  = (Return (VSdk (path ++ parts)), st).
Proof.
  induction parts as [| part rest IH]; intros path st Hp Hr; simpl.
  - now rewrite app_nil_r.
  - simpl in Hr. apply andb_prop in Hr as [Hhas Hrest].
    unfold bind. simpl getattr.
    destruct path as [| p0 path0]; [now destruct Hp |].
    rewrite Hhas. simpl.
    rewrite IH; [| discriminate | assumption].
    simpl. now rewrite <- app_assoc.
Qed.

Lemma walk_module E mro inv part rest st :
  String.eqb part "api_key" = false ->
  reachable E [] (part :: rest) = true ->
  walk (protocol_of E mro inv) stripe (part :: rest) st
  = (Return (VSdk (part :: rest)), st).
Proof.
  intros Hn Hr. simpl in Hr. apply andb_prop in Hr as [Hhas Hrest].
  simpl. unfold bind. simpl getattr. rewrite Hn, Hhas. simpl.
  now rewrite walk_below.
Qed.

Lemma truthy_str s : s <> "" -> truthy (VStr s) = true.
Proof.
  intros H. simpl. apply negb_true_iff. now apply String.eqb_neq.
Qed.

Lemma truthy_dict items : items <> [] -> truthy (VDict items) = true.
Proof. now destruct items. Qed.

(** X5. Past the gate, with a [stripe_method] that is not callable, the
    method takes the handle from [self.stripe], walks the dotted name in
    [stripe_sync_method] below it and, when every step exists and the end
    is callable, invokes exactly that operation once, with the keyword
    arguments and no positional one.  The caller gets [None], or the
    exception the service raised. *)
Theorem sync_walks_dotted_path E mro fuel st bound items s other st1 :
  lookup_attr mro (self_dict st) "stripe_sync" = Found bound ->
  truthy bound = true ->
  lookup_attr mro (self_dict st) "stripe_sync_kwargs" = Found (VDict items) ->
  items <> [] ->
  lookup_attr mro (self_dict st) "stripe_sync_method" = Found (VStr s) ->
  s <> "" ->
  lookup_attr mro (self_dict st) "stripe_method" = Found other ->
  callable E other = false ->
  getattr (host E mro fuel) VSelf "stripe" st = (Return stripe, st1) ->
  self_dict st1 = self_dict st ->
  String.eqb (hd "" (split "." s)) "api_key" = false ->
  reachable E [] (split "." s) = true ->
  sdk_callable E (split "." s) = true ->
  StripeSyncMixin.stripe_sync E (host E mro fuel) VSelf st
  = (dropped (sdk_reply E (api_key st1) (SdkCall (split "." s) [] items)),
     State (self_dict st1) (api_key st1)
       (calls st1 ++ [SdkCall (split "." s) [] items])).
Proof.
  intros Hb Tb Hk Tk Hn Tn Hm Cm Hh Hd Hkey Hreach Hcall.
  rewrite <- Hd in Hk, Hn.
  unfold StripeSyncMixin.stripe_sync.
  rewrite (bind_return _ _ _ _ _ (getattr_found E mro fuel _ _ _ Hb)).
  rewrite Tb. cbn [negb].
  rewrite Hd in Hk, Hn.
  rewrite (bind_return _ _ _ _ _ (getattr_found E mro fuel _ _ _ Hk)).
  rewrite (truthy_dict _ Tk). cbn [negb].
  rewrite (bind_return _ _ _ _ _ (getattr_found E mro fuel _ _ _ Hn)).
  rewrite (truthy_str _ Tn). cbn [negb].
  rewrite (bind_return _ _ _ _ _ (getattr_found E mro fuel _ _ _ Hm)).
  rewrite Cm. rewrite <- Hd in Hk, Hn.
  destruct (split_cons "." s) as (part & rest & Hs).
  rewrite Hs in *. simpl hd in Hkey.
  erewrite bind_return.
  2:{ rewrite (bind_return _ _ _ _ _ Hh).
      rewrite (bind_return _ _ _ _ _ (getattr_found E mro fuel _ _ _ Hn)).
      simpl str_split. rewrite Hs.
      erewrite bind_return; [| reflexivity].
      apply walk_module; assumption. }
  change (callable E (VSdk (part :: rest))) with (sdk_callable E (part :: rest)).
  rewrite Hcall.
  rewrite (bind_return _ _ _ _ _ (getattr_found E mro fuel _ _ _ Hk)).
  erewrite bind_return; [| reflexivity].
  unfold bind. cbn [call host protocol_of]. rewrite Hcall. unfold sdk_invoke.
  now destruct (sdk_reply E (api_key st1) _).
Qed.

Lemma sync_walks_dotted_path_witness :
  StripeSyncMixin.stripe_sync Demo.env (host Demo.env Muted.mro 1) VSelf
    (Demo.start ∅)
  = (Return VNone,
     State ∅ VNone [SdkCall ["Customer"; "create"] [] [("email", VStr "a@b.com")]]).
Proof.
  apply (sync_walks_dotted_path Demo.env Muted.mro 1 (Demo.start ∅)
           (VMethod M_stripe_sync) [("email", VStr "a@b.com")]
           "Customer.create" VNone (Demo.start ∅));
    try reflexivity; discriminate.
Defined.

Lemma sync_noop_without_kwargs_witness :
  StripeSyncMixin.stripe_sync Demo.env (host Demo.env Idle.mro 0) VSelf
    (Demo.start ∅)
  = (Return VNone, Demo.start ∅).
Proof.
  refine (sync_noop_without_kwargs Demo.env Idle.mro 0 (Demo.start ∅)
            (VMethod M_stripe_sync) _ _ (VDict []) _ _);
    reflexivity.
Defined.

Lemma sync_noop_without_method_witness :
  StripeSyncMixin.stripe_sync Demo.env (host Demo.env Draft.mro 0) VSelf
    (Demo.start ∅)
  = (Return VNone, Demo.start ∅).
Proof.
  refine (sync_noop_without_method Demo.env Draft.mro 0 (Demo.start ∅)
            (VMethod M_stripe_sync) _ _
            (VDict [("email", VStr "a@b.com")]) (VStr "") _ _ _ _);
    reflexivity.
Defined.

Lemma sync_needs_stripe_method_witness :
  StripeSyncMixin.stripe_sync Demo.env (host Demo.env Signup.mro 0) VSelf
    (Demo.start ∅)
  = (Raise AttributeError, Demo.start ∅).
Proof.
  refine (sync_needs_stripe_method Demo.env Signup.mro 0 (Demo.start ∅)
            (VMethod M_stripe_sync) _ _
            (VDict [("email", VStr "a@b.com")]) (VStr "Customer.create")
            _ _ _ _ _);
    reflexivity.
Defined.

Lemma sync_calls_stripe_method_witness :
  StripeSyncMixin.stripe_sync Demo.env (host Demo.env Direct.mro 0) VSelf
    (Demo.start ∅)
  = (Return VNone,
     State ∅ VNone [SdkCall ["Customer"; "create"] [] [("email", VStr "a@b.com")]]).
Proof.
  refine (eq_trans
            (sync_calls_stripe_method Demo.env Direct.mro 0 (Demo.start ∅)
               (VMethod M_stripe_sync) _ _
               [("email", VStr "a@b.com")] (VStr "Customer.create")
               (VSdk ["Customer"; "create"]) _ _ _ _ _ _) _);
    try reflexivity; discriminate.
Defined.

(** ** The accessors on the hosts one meets *)

Lemma resolve_stored E mro fuel st attr d v :
  lookup_attr mro (self_dict st) attr = Found v ->
  callable E v = false ->
  _get_attr_value E (host E mro fuel) VSelf attr d st = (Return v, st).
Proof.
  intros H C. eapply resolve_plain; eauto using hasattr_found, getattr_found.
Qed.

Lemma resolve_missing E mro fuel st attr d :
  lookup_attr mro (self_dict st) attr = Missing ->
  _get_attr_value E (host E mro fuel) VSelf attr d st = (Return d, st).
Proof. intros H. apply resolve_absent. now apply hasattr_missing. Qed.

Lemma named_accessors_retrieve_their_resource_witness :
  StripePlanMixin._get_stripe_plan Demo.env (host Demo.env Billing.mro 0) VSelf
    (Demo.start ∅)
  = (Return (VObject [("path", VStr "Plan.retrieve"); ("id", VStr "gold")]),
     State ∅ VNone [SdkCall ["Plan"; "retrieve"] [VStr "gold"] []])
  /\ StripeChargeMixin._get_stripe_charge Demo.env (host Demo.env Billing.mro 0)
       VSelf (Demo.start ∅)
     = (Return (VObject [("path", VStr "Charge.retrieve"); ("id", VStr "ch_1")]),
        State ∅ VNone [SdkCall ["Charge"; "retrieve"] [VStr "ch_1"] []]).
Proof.
  split.
  - destruct (named_accessors_retrieve_their_resource Demo.env Billing.mro 0
                (Demo.start ∅) (VStr "gold") (Demo.start ∅)) as (H & _ & _).
    rewrite H; reflexivity.
  - destruct (named_accessors_retrieve_their_resource Demo.env Billing.mro 0
                (Demo.start ∅) (VStr "ch_1") (Demo.start ∅)) as (_ & _ & H).
    rewrite H; reflexivity.
Defined.

(** X8. A host without the id attribute is no error to the getters: the
    resolver's [None] is handed to the retrieve operation, which is invoked
    all the same.  So for the plan, the invoice and the charge getter, and
    for the invoice item getter on [Invoice]. *)
Theorem missing_id_sends_none E mro fuel st :
  let P := host E mro fuel in
  (lookup_attr mro (self_dict st) "stripe_plan_id" = Missing ->
   sdk_has E ["Plan"] = true -> sdk_has E ["Plan"; "retrieve"] = true ->
   sdk_callable E ["Plan"; "retrieve"] = true ->
   StripePlanMixin._get_stripe_plan E P VSelf st
   = sdk_invoke E ["Plan"; "retrieve"] [VNone] [] st)
  /\ (lookup_attr mro (self_dict st) "stripe_invoice_id" = Missing ->
      sdk_has E ["Invoice"] = true -> sdk_has E ["Invoice"; "retrieve"] = true ->
      sdk_callable E ["Invoice"; "retrieve"] = true ->
      StripeInvoiceMixin._get_stripe_invoice E P VSelf st
      = sdk_invoke E ["Invoice"; "retrieve"] [VNone] [] st)
  /\ (lookup_attr mro (self_dict st) "stripe_invoice_item_id" = Missing ->
      sdk_has E ["Invoice"] = true -> sdk_has E ["Invoice"; "retrieve"] = true ->
      sdk_callable E ["Invoice"; "retrieve"] = true ->
      StripeInvoiceItemMixin._get_stripe_invoice E P VSelf st
      = sdk_invoke E ["Invoice"; "retrieve"] [VNone] [] st)
  /\ (lookup_attr mro (self_dict st) "stripe_charge_id" = Missing ->
      sdk_has E ["Charge"] = true -> sdk_has E ["Charge"; "retrieve"] = true ->
      sdk_callable E ["Charge"; "retrieve"] = true ->
      StripeChargeMixin._get_stripe_charge E P VSelf st
      = sdk_invoke E ["Charge"; "retrieve"] [VNone] [] st).
Proof.
  intros P. repeat split; intros Hm Hr Hop Hc.
  - rewrite plan_shape.
    apply retrieve_by_id_invokes; auto using resolve_missing.
  - rewrite invoice_shape.
    apply retrieve_by_id_invokes; auto using resolve_missing.
  - rewrite invoice_item_shape.
    apply retrieve_by_id_invokes; auto using resolve_missing.
  - rewrite charge_shape.
    apply retrieve_by_id_invokes; auto using resolve_missing.
Qed.

Lemma missing_id_sends_none_witness :
  StripePlanMixin._get_stripe_plan Demo.env (host Demo.env ZebraMixin.mro 0)
    VSelf (Demo.start ∅)
  = (Return (VObject [("path", VStr "Plan.retrieve"); ("id", VNone)]),
     State ∅ VNone [SdkCall ["Plan"; "retrieve"] [VNone] []]).
Proof.
  destruct (missing_id_sends_none Demo.env ZebraMixin.mro 0 (Demo.start ∅))
    as (H & _).
  rewrite H; reflexivity.
Defined.

(** The customer getter on a host that takes [stripe] from [StripeMixin]
    and stores its key and its customer id. *)
Lemma customer_getter_run E mro fuel st key id :
  lookup_attr mro (self_dict st) "stripe" = Computed M_get_stripe ->
  lookup_attr mro (self_dict st) "stripe_api_key" = Found key ->
  callable E key = false ->
  lookup_attr mro (self_dict st) "stripe_customer_id" = Found id ->
  callable E id = false ->
  sdk_has E ["Customer"] = true ->
  sdk_has E ["Customer"; "retrieve"] = true ->
  sdk_callable E ["Customer"; "retrieve"] = true ->
  StripeCustomerMixin._get_stripe_customer E (host E mro (S fuel)) VSelf st
  = sdk_invoke E ["Customer"; "retrieve"] [id] []
      (State (self_dict st) key (calls st)).
Proof.
  intros Hs Hk Ck Hi Ci Hr Hop Hc.
  rewrite (customer_sets_key_first E mro fuel st key Hs Hk Ck Hr Hop).
  erewrite bind_return; [| apply resolve_stored; [exact Hi | exact Ci]].
  simpl. now rewrite Hc.
Qed.

Lemma customer_property_run E mro fuel st key id :
  lookup_attr mro (self_dict st) "stripe_customer"
  = Computed M_get_stripe_customer ->
  lookup_attr mro (self_dict st) "stripe" = Computed M_get_stripe ->
  lookup_attr mro (self_dict st) "stripe_api_key" = Found key ->
  callable E key = false ->
  lookup_attr mro (self_dict st) "stripe_customer_id" = Found id ->
  callable E id = false ->
  sdk_has E ["Customer"] = true ->
  sdk_has E ["Customer"; "retrieve"] = true ->
  sdk_callable E ["Customer"; "retrieve"] = true ->
  getattr (host E mro (S (S fuel))) VSelf "stripe_customer" st
  = sdk_invoke E ["Customer"; "retrieve"] [id] []
      (State (self_dict st) key (calls st)).
Proof.
  intros Hp Hs Hk Ck Hi Ci Hr Hop Hc.
  rewrite getattr_self, Hp.
  now apply (customer_getter_run E mro fuel st key id).
Qed.

(** X9. Reading [stripe_customer] on such a host configures the host's key
    first and then invokes [Customer.retrieve] once, with the stored id:
    the answer is the one the service gives for the host's key, whatever
    key was configured before, and an exception of the service reaches the
    caller as it is. *)
Theorem customer_property_uses_host_key E mro fuel st key id :
  lookup_attr mro (self_dict st) "stripe_customer"
  = Computed M_get_stripe_customer ->
  lookup_attr mro (self_dict st) "stripe" = Computed M_get_stripe ->
  lookup_attr mro (self_dict st) "stripe_api_key" = Found key ->
  callable E key = false ->
  lookup_attr mro (self_dict st) "stripe_customer_id" = Found id ->
  callable E id = false ->
  sdk_has E ["Customer"] = true ->
  sdk_has E ["Customer"; "retrieve"] = true ->
  sdk_callable E ["Customer"; "retrieve"] = true ->
  getattr (host E mro (S (S fuel))) VSelf "stripe_customer" st
  = (sdk_reply E key (SdkCall ["Customer"; "retrieve"] [id] []),
     State (self_dict st) key
       (calls st ++ [SdkCall ["Customer"; "retrieve"] [id] []])).
Proof.
  intros. now rewrite (customer_property_run E mro fuel st key id).
Qed.

Lemma customer_property_uses_host_key_witness :
  getattr (host Demo.env Billing.mro 2) VSelf "stripe_customer"
    (State ∅ (VStr "sk_old") [])
  = (Return (VObject [("path", VStr "Customer.retrieve"); ("id", VStr "cus_1")]),
     State ∅ (VStr "sk_test") [SdkCall ["Customer"; "retrieve"] [VStr "cus_1"] []]).
Proof.
  apply (customer_property_uses_host_key Demo.env Billing.mro 0
           (State ∅ (VStr "sk_old") []) (VStr "sk_test") (VStr "cus_1"));
    reflexivity.
Defined.

(** X10. [StripeCustomerMixin] reads [self.stripe] and defines no such
    attribute: on a host that has none, from [StripeMixin] or of its own,
    the getter raises [AttributeError] before anything is resolved or
    invoked. *)
Theorem customer_without_handle_raises E mro fuel st :
  lookup_attr mro (self_dict st) "stripe" = Missing ->
  StripeCustomerMixin._get_stripe_customer E (host E mro fuel) VSelf st
  = (Raise AttributeError, st).
Proof.
  intros H. unfold StripeCustomerMixin._get_stripe_customer.
  now rewrite (bind_raise _ _ _ _ _ (getattr_missing E mro fuel _ _ H)).
Qed.

Lemma customer_without_handle_raises_witness :
  StripeCustomerMixin._get_stripe_customer Demo.env (host Demo.env Lone.mro 1)
    VSelf (Demo.start ∅)
  = (Raise AttributeError, Demo.start ∅).
Proof.
  apply (customer_without_handle_raises Demo.env Lone.mro 1 (Demo.start ∅)).
  reflexivity.
Defined.

(** ** The subscription accessor on the hosts one meets *)

Lemma subscription_of_resolved E mro fuel st customer st1 :
  _get_attr_value E (host E mro fuel) VSelf "stripe_customer" VNone st
  = (Return customer, st1) ->
  customer <> VSelf ->
  StripeSubscriptionMixin._get_stripe_subscription E (host E mro fuel) VSelf st
  = (Return (default VNone (field E st1 customer "subscription")), st1).
Proof.
  intros R Hc. unfold StripeSubscriptionMixin._get_stripe_subscription.
  rewrite (bind_return _ _ _ _ _ R).
  unfold bind, hasattr, host. rewrite (getattr_other _ _ _ _ _ Hc).
  rewrite getattr_value_outcome.
  destruct (field E st1 customer "subscription") as [v |] eqn:F; simpl.
  - rewrite getattr_value_outcome. now rewrite F.
  - reflexivity.
Qed.

(** X11. On a host without [stripe_customer] the subscription accessor
    answers [None]: nothing is raised and nothing is invoked. *)
Theorem subscription_without_customer_is_none E mro fuel st :
  lookup_attr mro (self_dict st) "stripe_customer" = Missing ->
  StripeSubscriptionMixin._get_stripe_subscription E (host E mro fuel) VSelf st
  = (Return VNone, st).
Proof.
  intros H.
  now rewrite (subscription_of_resolved E mro fuel st VNone st
                 (resolve_missing E mro fuel st _ VNone H)).
Qed.

Lemma subscription_without_customer_is_none_witness :
  StripeSubscriptionMixin._get_stripe_subscription Demo.env
    (host Demo.env [StripeSubscriptionMixin.body] 0) VSelf (Demo.start ∅)
  = (Return VNone, Demo.start ∅).
Proof.
  apply (subscription_without_customer_is_none Demo.env
           [StripeSubscriptionMixin.body] 0 (Demo.start ∅)).
  reflexivity.
Defined.

(** X12. The existence check of the resolver hides an [AttributeError]
    raised inside a property.  On a host that takes [stripe_customer] from
    [StripeCustomerMixin] and has no [stripe], the customer getter fails
    with [AttributeError]; the subscription accessor turns that into
    [None] and raises nothing. *)
Theorem subscription_hides_missing_handle E mro fuel st :
  lookup_attr mro (self_dict st) "stripe_customer"
  = Computed M_get_stripe_customer ->
  lookup_attr mro (self_dict st) "stripe" = Missing ->
  getattr (host E mro (S fuel)) VSelf "stripe_customer" st
  = (Raise AttributeError, st)
  /\ StripeSubscriptionMixin._get_stripe_subscription E (host E mro (S fuel))
       VSelf st
     = (Return VNone, st).
Proof.
  intros Hp Hs.
  assert (G : getattr (host E mro (S fuel)) VSelf "stripe_customer" st
              = (Raise AttributeError, st)).
  { rewrite getattr_self, Hp. simpl invoke.
    unfold StripeCustomerMixin._get_stripe_customer.
    now rewrite (bind_raise _ _ _ _ _ (getattr_missing E mro fuel _ _ Hs)). }
  split; [exact G |].
  assert (R : _get_attr_value E (host E mro (S fuel)) VSelf "stripe_customer"
                VNone st = (Return VNone, st)).
  { apply resolve_absent. unfold hasattr. now rewrite G. }
  now rewrite (subscription_of_resolved E mro (S fuel) st VNone st R).
Qed.

Lemma subscription_hides_missing_handle_witness :
  getattr (host Demo.env Lone.mro 1) VSelf "stripe_customer" (Demo.start ∅)
  = (Raise AttributeError, Demo.start ∅)
  /\ StripeSubscriptionMixin._get_stripe_subscription Demo.env
       (host Demo.env Lone.mro 1) VSelf (Demo.start ∅)
     = (Return VNone, Demo.start ∅).
Proof.
  apply (subscription_hides_missing_handle Demo.env Lone.mro 0 (Demo.start ∅));
    reflexivity.
Defined.

(** X13. On a host of the aggregate kind the subscription accessor invokes
    [Customer.retrieve] twice: the resolver's existence check runs the
    [stripe_customer] property, and so does the read that follows.  The
    subscription is read off the second answer. *)
Theorem subscription_retrieves_customer_twice E mro fuel st key id customer :
  lookup_attr mro (self_dict st) "stripe_customer"
  = Computed M_get_stripe_customer ->
  lookup_attr mro (self_dict st) "stripe" = Computed M_get_stripe ->
  lookup_attr mro (self_dict st) "stripe_api_key" = Found key ->
  callable E key = false ->
  lookup_attr mro (self_dict st) "stripe_customer_id" = Found id ->
  callable E id = false ->
  sdk_has E ["Customer"] = true ->
  sdk_has E ["Customer"; "retrieve"] = true ->
  sdk_callable E ["Customer"; "retrieve"] = true ->
  sdk_reply E key (SdkCall ["Customer"; "retrieve"] [id] []) = Return customer ->
  callable E customer = false ->
  customer <> VSelf ->
  StripeSubscriptionMixin._get_stripe_subscription E (host E mro (S (S fuel)))
    VSelf st
  = (let after :=
       State (self_dict st) key
         (calls st ++ [SdkCall ["Customer"; "retrieve"] [id] [];
                       SdkCall ["Customer"; "retrieve"] [id] []]) in
     (Return (default VNone (field E after customer "subscription")), after)).
Proof.
  intros Hp Hs Hk Ck Hi Ci Hr Hop Hc Hreply Cc Hself.
  set (c := SdkCall ["Customer"; "retrieve"] [id] []) in *.
  set (st1 := State (self_dict st) key (calls st ++ [c])).
  assert (G1 : getattr (host E mro (S (S fuel))) VSelf "stripe_customer" st
               = (Return customer, st1)).
  { rewrite (customer_property_run E mro fuel st key id); auto.
    unfold sdk_invoke. simpl. fold c. now rewrite Hreply. }
  assert (G2 : getattr (host E mro (S (S fuel))) VSelf "stripe_customer" st1
               = (Return customer,
                  State (self_dict st) key (calls st ++ [c; c]))).
  { rewrite (customer_property_run E mro fuel st1 key id); auto.
    unfold sdk_invoke. simpl. fold c. rewrite Hreply.
    now rewrite <- app_assoc. }
  cbv zeta. apply subscription_of_resolved; [| assumption].
  eapply resolve_plain; [| exact G2 | assumption].
  unfold hasattr. now rewrite G1.
Qed.

Lemma subscription_retrieves_customer_twice_witness :
  StripeSubscriptionMixin._get_stripe_subscription Demo.env
    (host Demo.env Billing.mro 2) VSelf (Demo.start ∅)
  = (Return VNone,
     State ∅ (VStr "sk_test")
       [SdkCall ["Customer"; "retrieve"] [VStr "cus_1"] [];
        SdkCall ["Customer"; "retrieve"] [VStr "cus_1"] []]).
Proof.
  apply (subscription_retrieves_customer_twice Demo.env Billing.mro 0
           (Demo.start ∅) (VStr "sk_test") (VStr "cus_1")
           (VObject [("path", VStr "Customer.retrieve"); ("id", VStr "cus_1")]));
    try reflexivity; discriminate.
Defined.

(** X14. When the service raises while the customer is retrieved, what the
    subscription accessor does depends on the [hasattr] of the runtime:
    where it hides only [AttributeError] the exception reaches the caller,
    where it hides every exception the accessor answers [None].  Either way
    one invocation was made. *)
Theorem subscription_on_service_error E mro fuel st key id e :
  lookup_attr mro (self_dict st) "stripe_customer"
  = Computed M_get_stripe_customer ->
  lookup_attr mro (self_dict st) "stripe" = Computed M_get_stripe ->
  lookup_attr mro (self_dict st) "stripe_api_key" = Found key ->
  callable E key = false ->
  lookup_attr mro (self_dict st) "stripe_customer_id" = Found id ->
  callable E id = false ->
  sdk_has E ["Customer"] = true ->
  sdk_has E ["Customer"; "retrieve"] = true ->
  sdk_callable E ["Customer"; "retrieve"] = true ->
  sdk_reply E key (SdkCall ["Customer"; "retrieve"] [id] []) = Raise e ->
  is_attribute_error e = false ->
  StripeSubscriptionMixin._get_stripe_subscription E (host E mro (S (S fuel)))
    VSelf st
  = (if hasattr_hides_all E then Return VNone else Raise e,
     State (self_dict st) key
       (calls st ++ [SdkCall ["Customer"; "retrieve"] [id] []])).
Proof.
  intros Hp Hs Hk Ck Hi Ci Hr Hop Hc Hreply He.
  set (c := SdkCall ["Customer"; "retrieve"] [id] []) in *.
  set (st1 := State (self_dict st) key (calls st ++ [c])).
  assert (G : getattr (host E mro (S (S fuel))) VSelf "stripe_customer" st
              = (Raise e, st1)).
  { rewrite (customer_property_run E mro fuel st key id); auto.
    unfold sdk_invoke. simpl. fold c. now rewrite Hreply. }
  destruct (hasattr_hides_all E) eqn:Hall.
  - assert (R : _get_attr_value E (host E mro (S (S fuel))) VSelf
                  "stripe_customer" VNone st = (Return VNone, st1)).
    { apply resolve_absent. unfold hasattr. rewrite G, Hall.
      now rewrite orb_true_r. }
    now rewrite (subscription_of_resolved E mro _ st VNone st1 R).
  - unfold StripeSubscriptionMixin._get_stripe_subscription, _get_attr_value.
    assert (H : hasattr E (host E mro (S (S fuel))) VSelf "stripe_customer" st
                = (Raise e, st1)).
    { unfold hasattr. now rewrite G, Hall, He. }
    erewrite bind_raise; [reflexivity |].
    now rewrite (bind_raise _ _ _ _ _ H).
Qed.

Lemma subscription_on_service_error_witness :
  StripeSubscriptionMixin._get_stripe_subscription Outage.env
    (host Outage.env Billing.mro 2) VSelf (Demo.start ∅)
  = (Raise (OtherError "APIConnectionError"),
     State ∅ (VStr "sk_test") [SdkCall ["Customer"; "retrieve"] [VStr "cus_1"] []])
  /\ StripeSubscriptionMixin._get_stripe_subscription Outage.legacy_env
       (host Outage.legacy_env Billing.mro 2) VSelf (Demo.start ∅)
     = (Return VNone,
        State ∅ (VStr "sk_test")
          [SdkCall ["Customer"; "retrieve"] [VStr "cus_1"] []]).
Proof.
  split.
  - apply (subscription_on_service_error Outage.env Billing.mro 0
             (Demo.start ∅) (VStr "sk_test") (VStr "cus_1")
             (OtherError "APIConnectionError"));
      reflexivity.
  - apply (subscription_on_service_error Outage.legacy_env Billing.mro 0
             (Demo.start ∅) (VStr "sk_test") (VStr "cus_1")
             (OtherError "APIConnectionError"));
      reflexivity.
Defined.

(** ** More on the resolver and the handle *)

(** X15. An exception raised by the callable the resolver calls reaches the
    caller as it is, with the state the callable left: past the existence
    check the resolver catches nothing. *)
Theorem resolve_propagates_callable_error E mro fuel st X d c e st' :
  lookup_attr mro (self_dict st) X = Found c ->
  callable E c = true ->
  call (host E mro fuel) c [] [] st = (Raise e, st') ->
  _get_attr_value E (host E mro fuel) VSelf X d st = (Raise e, st').
Proof.
  intros H C R. rewrite <- R.
  eapply resolve_called; eauto using hasattr_found, getattr_found.
Qed.

Lemma resolve_propagates_callable_error_witness :
  _get_attr_value Faulty.env (host Faulty.env [Faulty.body] 1) VSelf "token"
    (VStr "none") (Demo.start ∅)
  = (Raise (OtherError "ValueError"), Demo.start ∅).
Proof.
  apply (resolve_propagates_callable_error Faulty.env [Faulty.body] 1
           (Demo.start ∅) "token" (VStr "none") (VMethod (MUser "token")));
    reflexivity.
Defined.

(** X16. Asking for the handle twice is asking once: on a host that stores
    its key, or has none, the second [_get_stripe] returns the module again
    and leaves the state the first one left. *)
Theorem get_stripe_twice E mro fuel st :
  (lookup_attr mro (self_dict st) "stripe_api_key" = Missing
   \/ exists key, lookup_attr mro (self_dict st) "stripe_api_key" = Found key
                  /\ callable E key = false) ->
  (_ <- StripeMixin._get_stripe E (host E mro fuel) VSelf ;;
   StripeMixin._get_stripe E (host E mro fuel) VSelf) st
  = StripeMixin._get_stripe E (host E mro fuel) VSelf st.
Proof.
  intros [H | (key & H & C)].
  - assert (G : StripeMixin._get_stripe E (host E mro fuel) VSelf st
                = (Return stripe, st)).
    { apply get_stripe_absent. now apply hasattr_missing. }
    now rewrite (bind_return _ _ _ _ _ G).
  - rewrite (bind_return _ _ _ _ _ (get_stripe_stored E mro fuel st key H C)).
    rewrite (get_stripe_stored E mro fuel st key H C).
    now rewrite (get_stripe_stored E mro fuel
                   (State (self_dict st) key (calls st)) key H C).
Qed.

Lemma get_stripe_twice_witness :
  (_ <- StripeMixin._get_stripe Demo.env (host Demo.env Billing.mro 0) VSelf ;;
   StripeMixin._get_stripe Demo.env (host Demo.env Billing.mro 0) VSelf)
    (Demo.start ∅)
  = (Return stripe, State ∅ (VStr "sk_test") []).
Proof.
  refine (eq_trans (get_stripe_twice Demo.env Billing.mro 0 (Demo.start ∅) _) _).
  - right. exists (VStr "sk_test"). split; reflexivity.
  - reflexivity.
Defined.

(** ** What no mixin does, and what a subclass cannot change *)

(** X17. On a host whose own functions do not write to it, no method of the
    mixins and no attribute read changes what the host stores: the
    accessors and [stripe_sync] only read the host. *)
Theorem mixins_never_write_host E mro fuel :
  (forall f args kwargs, keeps_host (code E f args kwargs)) ->
  (forall m args kwargs st,
     self_dict (snd (invoke E mro fuel m args kwargs st)) = self_dict st)
  /\ (forall o name st,
        self_dict (snd (getattr (host E mro fuel) o name st)) = self_dict st).
Proof.
  intros Hcode. split.
  - intros m args kwargs. apply (keeps_invoke E mro Hcode).
  - destruct (keeps_protocol_of E mro (invoke E mro fuel)
                (keeps_invoke E mro Hcode fuel)) as [Hg _].
    intros o name. apply Hg.
Qed.

Lemma mixins_never_write_host_witness :
  self_dict (snd (invoke Demo.quiet_env Muted.mro 2 M_stripe_sync [] []
                    (Demo.start ∅))) = ∅
  /\ self_dict (snd (getattr (host Demo.quiet_env Billing.mro 3) VSelf
                       "stripe_subscription" (Demo.start ∅))) = ∅.
Proof.
  destruct (mixins_never_write_host Demo.quiet_env Muted.mro 2) as [H _];
    [intros f args kwargs st; reflexivity |].
  destruct (mixins_never_write_host Demo.quiet_env Billing.mro 3) as [_ H'];
    [intros f args kwargs st; reflexivity |].
  split; [apply H | apply H'].
Defined.

(** X18. Each property is bound to the function its mixin defined, not to
    the name of that function: on a subclass of the aggregate that does not
    rebind the property itself, reading it runs the mixin's getter,
    whatever the subclass binds to the getter's name and whatever the
    instance stores under the property's name. *)
Theorem property_runs_the_mixin_getter E body fuel st :
  let P n := host E (body :: ZebraMixin.mro) n in
  (body !! "stripe" = None ->
   getattr (P (S fuel)) VSelf "stripe" st
   = StripeMixin._get_stripe E (P fuel) VSelf st)
  /\ (body !! "stripe_customer" = None ->
      getattr (P (S fuel)) VSelf "stripe_customer" st
      = StripeCustomerMixin._get_stripe_customer E (P fuel) VSelf st)
  /\ (body !! "stripe_subscription" = None ->
      getattr (P (S fuel)) VSelf "stripe_subscription" st
      = StripeSubscriptionMixin._get_stripe_subscription E (P fuel) VSelf st)
  /\ (body !! "stripe_plan" = None ->
      getattr (P (S fuel)) VSelf "stripe_plan" st
      = StripePlanMixin._get_stripe_plan E (P fuel) VSelf st)
  /\ (body !! "stripe_invoice" = None ->
      getattr (P (S fuel)) VSelf "stripe_invoice" st
      = StripeInvoiceMixin._get_stripe_invoice E (P fuel) VSelf st)
  /\ (body !! "stripe_charge" = None ->
      getattr (P (S fuel)) VSelf "stripe_charge" st
      = StripeChargeMixin._get_stripe_charge E (P fuel) VSelf st).
Proof.
  intros P. repeat split; intros H; unfold P;
    rewrite getattr_self; unfold lookup_attr; simpl find_member; rewrite H;
    reflexivity.
Qed.

Lemma property_runs_the_mixin_getter_witness :
  lookup_attr Custom.mro ∅ "_get_stripe_customer" = Found (VMethod (MUser "mine"))
  /\ getattr (host Demo.env Custom.mro 2) VSelf "stripe_customer"
       (State (<["stripe_customer" := VStr "mine"]> ∅) VNone [])
     = (Return (VObject [("path", VStr "Customer.retrieve"); ("id", VStr "cus_1")]),
        State (<["stripe_customer" := VStr "mine"]> ∅) VNone
          [SdkCall ["Customer"; "retrieve"] [VStr "cus_1"] []]).
Proof.
  split; [reflexivity |].
  destruct (property_runs_the_mixin_getter Demo.env Custom.body 1
              (State (<["stripe_customer" := VStr "mine"]> ∅) VNone []))
    as (_ & H & _).
  refine (eq_trans (H _) _); reflexivity.
Defined.
